(** * Registration intake, deduplication and confirmation

    A shallow embedding of the two Express servers of the repository:

    - the disk-backed server, [BACKEND/server.js] (multer disk storage,
      MD5 digests of the stored uploads, composite (event, teamName) index);
    - the in-memory server (multer memory storage, SHA-256 digests of the
      upload buffers, an Excel export route).

    A third source file repeats the disk-backed server in abridged form,
    without the composite index and with the base of the confirmation link
    read from the environment, as in the in-memory server; it is not
    modelled apart.

    A request handler is a function from the state before the request to a
    response and the state after it.  The state is the [Registration]
    collection, in insertion order, and the list of delivered mails.  A
    sequence of requests is served one after the other by [run]; the
    registration route is also given in two steps, its lookups and its
    insert, for requests that overlap.

    What lies outside the program is an input of the model: the digests of
    [crypto], [isEmail] and [normalizeEmail] of validator.js, the behaviour of
    the installed multer at the size limit and [BACKEND_URL] (class [Lib]),
    the clock readings and the outcome of [transporter.sendMail] (record
    [Env]).  Text is a Rocq [string]: a character is a code unit below 256.
    The database is taken to be reachable and to have built the unique
    indexes that the schema declares.  The disk-backed server reads an
    upload back from the path it was stored under: the two uploads of a
    request that are stored under one path are read back as one file,
    whose bytes the environment gives.  Rate limiting, CORS and the HTML of
    the mail are not modelled. *)

From Stdlib Require Import List String Ascii Bool ZArith Lia Arith.
From Stdlib Require Import DecimalString.
Import ListNotations.
Open Scope string_scope.


(** ** Characters and strings *)

Definition char_code (c : ascii) : nat := nat_of_ascii c.

Definition in_range (lo hi c : ascii) : bool :=
  (char_code lo <=? char_code c)%nat && (char_code c <=? char_code hi)%nat.

Definition is_digit (c : ascii) : bool := in_range "0" "9" c.

(** [String.prototype.toLowerCase] on code units below 256. *)
Definition lower_char (c : ascii) : ascii :=
  let n := char_code c in
  if ((65 <=? n) && (n <=? 90))%nat
     || ((192 <=? n) && (n <=? 222) && negb (n =? 215))%nat
  then ascii_of_nat (n + 32) else c.

Fixpoint toLowerCase (s : string) : string :=
  match s with
  | EmptyString => EmptyString
  | String c s' => String (lower_char c) (toLowerCase s')
  end.

Definition upper_char (c : ascii) : ascii :=
  let n := char_code c in
  if ((97 <=? n) && (n <=? 122))%nat
     || ((224 <=? n) && (n <=? 254) && negb (n =? 247))%nat
  then ascii_of_nat (n - 32) else c.

(** [field.charAt(0).toUpperCase() + field.slice(1)] *)
Definition capitalize (s : string) : string :=
  match s with
  | EmptyString => EmptyString
  | String c s' => String (upper_char c) s'
  end.

(** The white space of [\s] among the code units below 256. *)
Definition is_space (c : ascii) : bool :=
  let n := char_code c in
  ((9 <=? n) && (n <=? 13))%nat || (n =? 32)%nat || (n =? 160)%nat.

Fixpoint ltrim (s : string) : string :=
  match s with
  | EmptyString => EmptyString
  | String c s' => if is_space c then ltrim s' else s
  end.

Fixpoint rtrim (s : string) : string :=
  match s with
  | EmptyString => EmptyString
  | String c s' =>
      match rtrim s' with
      | EmptyString => if is_space c then EmptyString else String c EmptyString
      | t => String c t
      end
  end.

(** validator.js [trim(str)] with no character set. *)
Definition trim (s : string) : string := rtrim (ltrim s).

Definition string_of_Z (z : Z) : string := NilZero.string_of_int (Z.to_int z).

(** ** Regular expressions

    The patterns of the source are kept as syntax and run by a derivative
    matcher.  [accepts] is a match of the whole subject, which is what a
    pattern between [^] and [$] asks for (JavaScript's [$] without the [m]
    flag is the end of the subject); [test] is the unanchored search of
    [RegExp.prototype.test]. *)

Inductive regex : Type :=
| Void : regex
| Eps : regex
| Cls : list (ascii * ascii) -> regex
| Seq : regex -> regex -> regex
| Alt : regex -> regex -> regex
| Star : regex -> regex.

Definition in_class (rs : list (ascii * ascii)) (c : ascii) : bool :=
  existsb (fun r => in_range (fst r) (snd r) c) rs.

Definition Chr (c : ascii) : regex := Cls [(c, c)].
Definition Rng (lo hi : ascii) : regex := Cls [(lo, hi)].
Definition Any : regex := Cls [(ascii_of_nat 0, ascii_of_nat 255)].
Definition Opt (r : regex) : regex := Alt Eps r.
Definition Plus (r : regex) : regex := Seq r (Star r).

Fixpoint Times (n : nat) (r : regex) : regex :=
  match n with
  | O => Eps
  | S n' => Seq r (Times n' r)
  end.

Fixpoint Lit (s : string) : regex :=
  match s with
  | EmptyString => Eps
  | String c s' => Seq (Chr c) (Lit s')
  end.

Fixpoint nullable (r : regex) : bool :=
  match r with
  | Void => false
  | Eps => true
  | Cls _ => false
  | Seq a b => nullable a && nullable b
  | Alt a b => nullable a || nullable b
  | Star _ => true
  end.

Fixpoint deriv (c : ascii) (r : regex) : regex :=
  match r with
  | Void => Void
  | Eps => Void
  | Cls rs => if in_class rs c then Eps else Void
  | Seq a b =>
      if nullable a then Alt (Seq (deriv c a) b) (deriv c b)
      else Seq (deriv c a) b
  | Alt a b => Alt (deriv c a) (deriv c b)
  | Star a => Seq (deriv c a) (Star a)
  end.

Fixpoint accepts (r : regex) (s : string) : bool :=
  match s with
  | EmptyString => nullable r
  | String c s' => accepts (deriv c r) s'
  end.

Definition test (r : regex) (s : string) : bool :=
  accepts (Seq (Star Any) (Seq r (Star Any))) s.

(** ** Validators of validator.js and express-validator *)

(** [notEmpty()] *)
Definition notEmpty (s : string) : bool :=
  negb (String.length s =? 0)%nat.

(** [isLength({ min, max })] *)
Definition isLength (min max : nat) (s : string) : bool :=
  (min <=? String.length s)%nat && (String.length s <=? max)%nat.

(** [/^[-+]?[0-9]+$/], the pattern of [isInt] when leading zeroes are
    allowed (the default). *)
Definition intLeadingZeroes : regex :=
  Seq (Opt (Cls [("-", "-"); ("+", "+")]%char)) (Plus (Rng "0" "9")).

Fixpoint digits_value (acc : Z) (s : string) : Z :=
  match s with
  | EmptyString => acc
  | String c s' => digits_value (10 * acc + Z.of_nat (char_code c - 48)) s'
  end.

(** [Number(str)] on a subject of [intLeadingZeroes]. *)
Definition Number (s : string) : Z :=
  match s with
  | String "-" s' => - digits_value 0 s'
  | String "+" s' => digits_value 0 s'
  | _ => digits_value 0 s
  end.

(** [isInt({ min, max })] *)
Definition isInt (min max : Z) (s : string) : bool :=
  accepts intLeadingZeroes s && (min <=? Number s)%Z && (Number s <=? max)%Z.

(** [/^[6-9][0-9]{9}$/], the pattern given to [matches] by the in-memory
    server. *)
Definition mobile_pattern : regex :=
  Seq (Rng "6" "9") (Times 9 (Rng "0" "9")).

(** [/^(\+?91|0)?[6789]\d{9}$/], the pattern of validator.js for the locale
    ['en-IN'], which [isMobilePhone('en-IN')] of the disk-backed server
    runs. *)
Definition en_IN : regex :=
  Seq (Opt (Alt (Seq (Opt (Chr "+")) (Lit "91")) (Chr "0")))
      (Seq (Cls [("6", "6"); ("7", "7"); ("8", "8"); ("9", "9")]%char)
           (Times 9 (Rng "0" "9"))).

Definition matches (r : regex) (s : string) : bool := accepts r s.

Definition isMobilePhone_en_IN (s : string) : bool := accepts en_IN s.

(** [/jpeg|jpg|png|pdf/] of the upload filter. *)
Definition fileTypes : regex :=
  Alt (Lit "jpeg") (Alt (Lit "jpg") (Alt (Lit "png") (Lit "pdf"))).

(** ** Paths *)

Definition is_slash (c : ascii) : bool := (char_code c =? 47)%nat.
Definition is_dot (c : ascii) : bool := (char_code c =? 46)%nat.

Fixpoint has_slash (s : string) : bool :=
  match s with
  | EmptyString => false
  | String c s' => is_slash c || has_slash s'
  end.

(** [path.basename]: what follows the last slash. *)
Fixpoint basename (p : string) : string :=
  match p with
  | EmptyString => EmptyString
  | String c p' =>
      if has_slash p' then basename p'
      else if is_slash c then p' else p
  end.

Fixpoint from_last_dot (s : string) : option string :=
  match s with
  | EmptyString => None
  | String c s' =>
      match from_last_dot s' with
      | Some t => Some t
      | None => if is_dot c then Some s else None
      end
  end.

(** [path.extname]: from the last dot of the base name on, a dot that
    opens the base name apart. *)
Definition extname (p : string) : string :=
  match basename p with
  | EmptyString => EmptyString
  | String c b' =>
      if (String c b' =? "..")%string then EmptyString
      else match from_last_dot b' with
           | Some t => t
           | None => EmptyString
           end
  end.

(** ** Data model *)

(** The document of [registrationSchema].  The two path fields exist in
    the disk-backed schema only. *)
Record Registration : Type := {
  registrationId : string;
  event : string;
  teamName : string;
  teamLeaderName : string;
  email : string;
  mobile : string;
  gender : string;
  college : string;
  course : string;
  year : string;
  rollno : string;
  aadhar : string;
  teamSize : Z;
  aadharImage : option string;
  aadharImageHash : string;
  collegeId : option string;
  collegeIdHash : string;
  createdAt : Z;
  isConfirmed : bool
}.

(** [req.body]: the text parts of the multipart form. *)
Module Body.
Record t : Type := {
  registrationId : string;
  event : string;
  teamName : string;
  teamLeaderName : string;
  email : string;
  mobile : string;
  gender : string;
  college : string;
  course : string;
  year : string;
  rollno : string;
  aadhar : string;
  teamSize : string
}.
End Body.

(** A file part as multer hands it over. *)
Record File : Type := {
  originalname : string;
  mimetype : string;
  buffer : list Byte.byte
}.

(** [req.files]: at most one file under each of the two slots.
    [collegeId_first] tells in which order the two file parts arrive in
    the body, which is the order in which multer meets them. *)
Record Request : Type := {
  body : Body.t;
  files_aadharImage : option File;
  files_collegeId : option File;
  collegeId_first : bool
}.

Record ValidationError : Type := { param : string; msg : string }.

(** The [data] object of the success response. *)
Record Receipt : Type := {
  fields : Body.t;
  receipt_aadharImage : option string;
  receipt_collegeId : option string;
  receipt_createdAt : Z
}.

Inductive json : Type :=
| JError (error : string)
| JErrors (errors : list ValidationError)
| JMessage (message : string)
| JRegistered (message registrationId : string) (data : Receipt)
| JWorkbook (rows : list (list string)).

Record response : Type := { status : Z; payload : json }.

Record Mail : Type := { to : string; subject : string; confirmationLink : string }.

Record State : Type := { db : list Registration; outbox : list Mail }.

(** What a rejected promise or a [throw] carries. *)
Record JsError : Type := {
  code : option Z;
  keyPattern : list string;
  err_message : string
}.

Definition Error (m : string) : JsError :=
  {| code := None; keyPattern := []; err_message := m |}.

Inductive mail_outcome : Type :=
| Delivered
| TransportError (message : string).

(** What one request reads from outside the program: [Date.now()] at the
    naming of each stored upload and at the construction of the document,
    what [transporter.sendMail] does, and, when the two uploads were
    written to one path, the bytes that this file holds when it is read
    back. *)
Record Env : Type := {
  now_aadharImage : Z;
  now_collegeId : Z;
  now : Z;
  sendMail : mail_outcome;
  shared_upload : list Byte.byte
}.

Inductive server : Type := DiskBacked | InMemory.

(** What is taken as given: the library functions and the configuration of
    the process. *)
Class Lib : Type := {
  md5 : list Byte.byte -> string;
  sha256 : list Byte.byte -> string;
  isEmail : string -> bool;
  normalizeEmail : string -> string;
  (** whether the installed multer refuses a file of exactly [fileSize]
      bytes: it does from 1.4.5-lts.1 on and did not before, and the
      repository pins no version *)
  refuses_at_limit : bool;
  (** [process.env.BACKEND_URL] *)
  BACKEND_URL : option string
}.

(** ** Record store *)

Definition confirmed (r : Registration) : Registration :=
  {| registrationId := registrationId r; event := event r;
     teamName := teamName r; teamLeaderName := teamLeaderName r;
     email := email r; mobile := mobile r; gender := gender r;
     college := college r; course := course r; year := year r;
     rollno := rollno r; aadhar := aadhar r; teamSize := teamSize r;
     aadharImage := aadharImage r; aadharImageHash := aadharImageHash r;
     collegeId := collegeId r; collegeIdHash := collegeIdHash r;
     createdAt := createdAt r; isConfirmed := true |}.

(** [Model.findOne(filter)]: the first document, in insertion order, that
    the filter selects. *)
Definition findOne (filter : Registration -> bool) (docs : list Registration)
  : option Registration :=
  find filter docs.

(** The position of the document that [findOne] returns; it stands for
    its [_id]. *)
Fixpoint findIndex (filter : Registration -> bool) (docs : list Registration)
  : option nat :=
  match docs with
  | [] => None
  | d :: docs' =>
      if filter d then Some O else option_map S (findIndex filter docs')
  end.

Fixpoint updateAt (i : nat) (f : Registration -> Registration)
  (docs : list Registration) {struct docs} : list Registration :=
  match docs, i with
  | [], _ => []
  | d :: docs', O => f d :: docs'
  | d :: docs', S i' => d :: updateAt i' f docs'
  end.

(** A unique index: its key pattern, each key with the field it reads. *)
Definition Index : Type := list (string * (Registration -> string)).

(** The indexes of the schema, in the order of their declaration.  The
    composite index is declared by [BACKEND/server.js] only. *)
Definition unique_indexes (v : server) : list Index :=
  ([ [("registrationId", registrationId)];
     [("teamName", teamName)];
     [("email", email)];
     [("mobile", mobile)];
     [("aadhar", aadhar)] ]
   ++ match v with
      | DiskBacked => [ [("event", event); ("teamName", teamName)] ]
      | InMemory => []
      end)%list.

Definition same_key (ix : Index) (a b : Registration) : bool :=
  forallb (fun k => (snd k a =? snd k b)%string) ix.

Definition violates (ix : Index) (doc : Registration)
  (docs : list Registration) : bool :=
  existsb (same_key ix doc) docs.

(** The key pattern of the first unique index that an insert of [doc]
    would violate. *)
Definition duplicate_key (v : server) (doc : Registration)
  (docs : list Registration) : option (list string) :=
  option_map (map fst)
    (find (fun ix => violates ix doc docs) (unique_indexes v)).

Definition required (s : string) : bool := negb (String.length s =? 0)%nat.

Definition required_path (v : server) (p : option string) : bool :=
  match v, p with
  | DiskBacked, Some s => required s
  | DiskBacked, None => false
  | InMemory, _ => true
  end.

(** The validators of the schema: every path is [required], and
    [teamSize] has [min: 1, max: 4]. *)
Definition schema_valid (v : server) (d : Registration) : bool :=
  required (registrationId d) && required (event d) && required (teamName d)
  && required (teamLeaderName d) && required (email d) && required (mobile d)
  && required (gender d) && required (college d) && required (course d)
  && required (year d) && required (rollno d) && required (aadhar d)
  && (1 <=? teamSize d)%Z && (teamSize d <=? 4)%Z
  && required_path v (aadharImage d) && required (aadharImageHash d)
  && required_path v (collegeId d) && required (collegeIdHash d).

(** [doc.save()] of a new document: validation, then the insert, which
    the first violated unique index refuses with code 11000. *)
Definition save (v : server) (doc : Registration) (docs : list Registration)
  : JsError + list Registration :=
  if schema_valid v doc then
    match duplicate_key v doc docs with
    | Some kp =>
        inl {| code := Some 11000%Z; keyPattern := kp;
               err_message := "E11000 duplicate key error" |}
    | None => inr (docs ++ [doc])%list
    end
  else inl (Error "Registration validation failed").

(** ** Upload middleware *)

Inductive MulterError : Type :=
| LIMIT_FILE_SIZE
| FilterError (message : string).

Definition fileFilter (v : server) (file : File) : bool :=
  match v with
  | DiskBacked =>
      test fileTypes (toLowerCase (extname (originalname file)))
      && test fileTypes (mimetype file)
  | InMemory => test fileTypes (mimetype file)
  end.

Definition fileSize : Z := 300000.

(** [limits: { fileSize }]: a file above the limit is refused, and so is
    a file of exactly the limit when the installed multer does so. *)
Definition over_limit {L : Lib} (size : Z) : bool :=
  (fileSize <? size)%Z || (refuses_at_limit && (size =? fileSize)%Z).

Definition accept_file {L : Lib} (v : server) (file : option File)
  : option MulterError :=
  match file with
  | None => None
  | Some f =>
      if fileFilter v f then
        if over_limit (Z.of_nat (List.length (buffer f)))
        then Some LIMIT_FILE_SIZE else None
      else Some (FilterError "Only images (jpeg, jpg, png) and PDFs are allowed")
  end.

(** The two file parts, in the order of their arrival. *)
Definition file_parts (req : Request) : option File * option File :=
  if collegeId_first req
  then (files_collegeId req, files_aadharImage req)
  else (files_aadharImage req, files_collegeId req).

(** multer stops at the first error it meets. *)
Definition upload {L : Lib} (v : server) (req : Request) : option MulterError :=
  match accept_file v (fst (file_parts req)) with
  | Some err => Some err
  | None => accept_file v (snd (file_parts req))
  end.

Definition or_default (m default : string) : string :=
  if (String.length m =? 0)%nat then default else m.

Definition upload_rejection (err : MulterError) : response :=
  match err with
  | LIMIT_FILE_SIZE =>
      {| status := 400; payload := JError "File size must be 300KB or less" |}
  | FilterError m =>
      {| status := 400; payload := JError (or_default m "File upload failed") |}
  end.

(** [destination] and [filename] of the disk storage. *)
Definition stored_path (t : Z) (file : File) : string :=
  "uploads/" ++ string_of_Z t ++ "-" ++ originalname file.

Section Handlers.

Context {L : Lib}.

(** ** Request validation *)

Definition check (ok : bool) (p m : string) : list ValidationError :=
  if ok then [] else [ {| param := p; msg := m |} ].

Definition mobile_rule (v : server) (s : string) : bool :=
  match v with
  | DiskBacked => isMobilePhone_en_IN s
  | InMemory => matches mobile_pattern s
  end.

Definition mobile_message (v : server) : string :=
  match v with
  | DiskBacked => "Invalid mobile number"
  | InMemory => "Valid 10-digit mobile number starting with 6-9 is required"
  end.

(** The errors of the thirteen chains, in their order. *)
Definition validationResult (v : server) (b : Body.t) : list ValidationError :=
  (check (isEmail (Body.email b)) "email" "Invalid email format"
  ++ check (mobile_rule v (Body.mobile b)) "mobile" (mobile_message v)
  ++ check (notEmpty (trim (Body.teamName b))) "teamName" "Team name is required"
  ++ check (notEmpty (trim (Body.teamLeaderName b))) "teamLeaderName"
       "Team leader name is required"
  ++ check (isLength 12 12 (Body.aadhar b)) "aadhar" "Aadhar must be 12 digits"
  ++ check (isInt 1 4 (Body.teamSize b)) "teamSize"
       "Team size must be between 1 and 4"
  ++ check (notEmpty (Body.registrationId b)) "registrationId"
       "Registration ID is required"
  ++ check (notEmpty (Body.event b)) "event" "Event is required"
  ++ check (notEmpty (Body.gender b)) "gender" "Gender is required"
  ++ check (notEmpty (Body.college b)) "college" "College is required"
  ++ check (notEmpty (Body.course b)) "course" "Course is required"
  ++ check (notEmpty (Body.year b)) "year" "Year is required"
  ++ check (notEmpty (Body.rollno b)) "rollno" "Roll number is required")%list.

(** [req.body] after the sanitizers of the chains: [normalizeEmail] on
    [email], [trim] on [teamName] and [teamLeaderName]. *)
Definition sanitized (b : Body.t) : Body.t :=
  {| Body.registrationId := Body.registrationId b;
     Body.event := Body.event b;
     Body.teamName := trim (Body.teamName b);
     Body.teamLeaderName := trim (Body.teamLeaderName b);
     Body.email := normalizeEmail (Body.email b);
     Body.mobile := Body.mobile b;
     Body.gender := Body.gender b;
     Body.college := Body.college b;
     Body.course := Body.course b;
     Body.year := Body.year b;
     Body.rollno := Body.rollno b;
     Body.aadhar := Body.aadhar b;
     Body.teamSize := Body.teamSize b |}.

(** ** Document hasher *)

(** The two uploads of the request were stored under one path: the same
    clock reading and the same original name. *)
Definition same_stored_path (env : Env) (fa fc : File) : bool :=
  (stored_path (now_aadharImage env) fa
   =? stored_path (now_collegeId env) fc)%string.

(** What [fs.createReadStream] yields at the path of the upload [own],
    once the uploads [fa] and [fc] of the request are stored. *)
Definition read_back (env : Env) (fa fc own : File) : list Byte.byte :=
  if same_stored_path env fa fc then shared_upload env else buffer own.

(** [calculateFileHash(filePath)] of the disk-backed server, on the bytes
    read at the path, and [calculateFileHash(buffer)] of the in-memory
    server. *)
Definition calculateFileHash (v : server) (bytes : list Byte.byte) : string :=
  match v with
  | DiskBacked => md5 bytes
  | InMemory => sha256 bytes
  end.

(** The digest that the route computes for the upload [own] of a request
    whose uploads are [fa] and [fc]. *)
Definition upload_digest (v : server) (env : Env) (fa fc own : File) : string :=
  match v with
  | DiskBacked => calculateFileHash v (read_back env fa fc own)
  | InMemory => calculateFileHash v (buffer own)
  end.

(** ** Notification *)

(** The base of the confirmation link: fixed in the disk-backed server,
    [process.env.BACKEND_URL || 'http://localhost:5000'] in the in-memory
    server. *)
Definition backend_url (v : server) : string :=
  match v with
  | DiskBacked => "http://localhost:5000"
  | InMemory =>
      match BACKEND_URL with
      | Some url => or_default url "http://localhost:5000"
      | None => "http://localhost:5000"
      end
  end.

Definition confirmation_mail (v : server) (b : Body.t) : Mail :=
  {| to := Body.email b;
     subject := "Thank You for Registering at HIET Tech Fest!";
     confirmationLink :=
       backend_url v ++ "/api/confirm/" ++ Body.registrationId b |}.

(** What a failed [sendMail] throws into the route: the disk-backed
    [sendConfirmationEmail] catches the error of the transport and throws
    one of its own, the in-memory one lets it through. *)
Definition mail_failure (v : server) (m : string) : JsError :=
  match v with
  | DiskBacked => Error "Failed to send confirmation email"
  | InMemory => Error m
  end.

Definition sendConfirmationEmail (v : server) (env : Env) (b : Body.t)
  (s : State) : (JsError + unit) * State :=
  match sendMail env with
  | Delivered =>
      (inr tt,
       {| db := db s; outbox := (outbox s ++ [confirmation_mail v b])%list |})
  | TransportError m => (inl (mail_failure v m), s)
  end.

(** [generateExcel] of the disk-backed server reads the collection and
    rewrites [exports/registrations.xlsx], catching every error of its
    own; the workbook file is no part of the state. *)
Definition generateExcel (s : State) : State := s.

(** ** Registration route *)

Definition new_Registration (v : server) (env : Env) (b : Body.t)
  (fa fc : File) : Registration :=
  {| registrationId := Body.registrationId b;
     event := Body.event b;
     teamName := Body.teamName b;
     teamLeaderName := Body.teamLeaderName b;
     email := Body.email b;
     mobile := Body.mobile b;
     gender := Body.gender b;
     college := Body.college b;
     course := Body.course b;
     year := Body.year b;
     rollno := Body.rollno b;
     aadhar := Body.aadhar b;
     teamSize := Number (Body.teamSize b);
     aadharImage :=
       match v with
       | DiskBacked => Some (stored_path (now_aadharImage env) fa)
       | InMemory => None
       end;
     aadharImageHash := upload_digest v env fa fc fa;
     collegeId :=
       match v with
       | DiskBacked => Some (stored_path (now_collegeId env) fc)
       | InMemory => None
       end;
     collegeIdHash := upload_digest v env fa fc fc;
     createdAt := now env;
     isConfirmed := false |}.

Definition bad_request (m : string) : response :=
  {| status := 400; payload := JError m |}.

(** A refusal inside the [try] block: the disk-backed server answers
    400 at once, the in-memory server throws and leaves the answer to
    its [catch]. *)
Definition refuse (v : server) (m : string) : JsError + response :=
  match v with
  | DiskBacked => inr (bad_request m)
  | InMemory => inl (Error m)
  end.

Definition duplicate_document (v : server)
  (existingAadhar existingCollegeId : option Registration)
  : option (JsError + response) :=
  match v with
  | DiskBacked =>
      match existingAadhar, existingCollegeId with
      | Some _, _ =>
          Some (refuse v "This Aadhar card image has already been uploaded")
      | None, Some _ =>
          Some (refuse v "This College ID image has already been uploaded")
      | None, None => None
      end
  | InMemory =>
      match existingAadhar, existingCollegeId with
      | None, None => None
      | _, _ =>
          Some (refuse v
                  "This Aadhar card or College ID image has already been uploaded")
      end
  end.

Definition team_message (b : Body.t) : string :=
  "Team '" ++ Body.teamName b ++ "' is already registered for '"
  ++ Body.event b ++ "'".

Definition success (v : server) (b : Body.t) (doc : Registration) : response :=
  {| status := 200;
     payload :=
       JRegistered "Registration successful. Please check your email to confirm."
         (Body.registrationId b)
         {| fields := b;
            receipt_aadharImage := option_map basename (aadharImage doc);
            receipt_collegeId := option_map basename (collegeId doc);
            receipt_createdAt := createdAt doc |} |}.

(** The [try] block of the route, on the sanitized body, up to the
    construction of the document: the two uploads, their digests and
    the three lookups. *)
Definition precheck (v : server) (env : Env) (b : Body.t)
  (req : Request) (s : State) : (JsError + response) + Registration :=
  match files_aadharImage req, files_collegeId req with
  | Some fa, Some fc =>
      let aadharImageHash' := upload_digest v env fa fc fa in
      let collegeIdHash' := upload_digest v env fa fc fc in
      let existingAadhar :=
        findOne (fun d => (aadharImageHash d =? aadharImageHash')%string) (db s) in
      let existingCollegeId :=
        findOne (fun d => (collegeIdHash d =? collegeIdHash')%string) (db s) in
      match duplicate_document v existingAadhar existingCollegeId with
      | Some out => inl out
      | None =>
          let existingTeamInEvent :=
            findOne (fun d => (event d =? Body.event b)%string
                              && (teamName d =? Body.teamName b)%string) (db s) in
          match existingTeamInEvent with
          | Some _ => inl (refuse v (team_message b))
          | None => inr (new_Registration v env b fa fc)
          end
      end
  | _, _ =>
      inl (refuse v "Both Aadhar card and College ID images are required")
  end.

(** The [try] block: the checks, then [save], the mail and, on the
    disk-backed server, the workbook. *)
Definition try_register (v : server) (env : Env) (b : Body.t)
  (req : Request) (s : State) : (JsError + response) * State :=
  match precheck v env b req s with
  | inl out => (out, s)
  | inr registration =>
      match save v registration (db s) with
      | inl err => (inl err, s)
      | inr docs =>
          let s1 := {| db := docs; outbox := outbox s |} in
          match sendConfirmationEmail v env b s1 with
          | (inl err, s2) => (inl err, s2)
          | (inr _, s2) =>
              let s3 := match v with
                        | DiskBacked => generateExcel s2
                        | InMemory => s2
                        end in
              (inr (success v b registration), s3)
          end
      end
  end.

Definition is_11000 (err : JsError) : bool :=
  match code err with
  | Some c => (c =? 11000)%Z
  | None => false
  end.

(** The [catch] block of the route. *)
Definition catch_register (v : server) (err : JsError) : response :=
  if is_11000 err then
    let field := hd "undefined" (keyPattern err) in
    bad_request
      (match v with
       | DiskBacked => field
       | InMemory => capitalize field
       end ++ " already exists")
  else
    {| status := match v with DiskBacked => 500 | InMemory => 400 end;
       payload :=
         JError (or_default (err_message err)
                   "An unexpected error occurred during registration") |}.

(** [POST /api/register] *)
Definition register (v : server) (env : Env) (req : Request) (s : State)
  : response * State :=
  match upload v req with
  | Some err => (upload_rejection err, s)
  | None =>
      match validationResult v (body req) with
      | [] =>
          match try_register v env (sanitized (body req)) req s with
          | (inr res, s') => (res, s')
          | (inl err, s') => (catch_register v err, s')
          end
      | errors => ({| status := 400; payload := JErrors errors |}, s)
      end
  end.

(** ** The registration route between its awaits

    The route awaits each of its lookups and then [save], so that the
    reads and the writes of another request can take place in between.
    [register_checks] is the route up to its last lookup: all that it
    reads from the collection.  [register_insert] is the rest of it: the
    insert, the mail and the answer. *)

Definition register_checks (v : server) (env : Env) (req : Request)
  (s : State) : response + Registration :=
  match upload v req with
  | Some err => inl (upload_rejection err)
  | None =>
      match validationResult v (body req) with
      | [] =>
          match precheck v env (sanitized (body req)) req s with
          | inl (inr res) => inl res
          | inl (inl err) => inl (catch_register v err)
          | inr registration => inr registration
          end
      | errors => inl {| status := 400; payload := JErrors errors |}
      end
  end.

Definition register_insert (v : server) (env : Env) (req : Request)
  (registration : Registration) (s : State) : response * State :=
  let b := sanitized (body req) in
  match save v registration (db s) with
  | inl err => (catch_register v err, s)
  | inr docs =>
      let s1 := {| db := docs; outbox := outbox s |} in
      match sendConfirmationEmail v env b s1 with
      | (inl err, s2) => (catch_register v err, s2)
      | (inr _, s2) =>
          let s3 := match v with
                    | DiskBacked => generateExcel s2
                    | InMemory => s2
                    end in
          (success v b registration, s3)
      end
  end.

(** ** Confirmation route *)

(** [GET /api/confirm/:registrationId] *)
Definition confirm (id : string) (s : State) : response * State :=
  let filter := fun d => (registrationId d =? id)%string in
  match findOne filter (db s), findIndex filter (db s) with
  | Some registration, Some i =>
      if isConfirmed registration then
        (bad_request "Email already confirmed", s)
      else
        ({| status := 200; payload := JMessage "Email confirmed successfully" |},
         {| db := updateAt i confirmed (db s); outbox := outbox s |})
  | _, _ =>
      ({| status := 404; payload := JError "Registration not found" |}, s)
  end.

(** ** Export route *)

Definition export_row (d : Registration) : list string :=
  [ registrationId d; event d; teamName d; teamLeaderName d; email d;
    mobile d; gender d; college d; course d; year d; rollno d; aadhar d;
    string_of_Z (teamSize d) ].

Definition export_header : list string :=
  [ "Registration ID"; "Event"; "Team Name"; "Team Leader"; "Email";
    "Mobile"; "Gender"; "College"; "Course"; "Year"; "Roll No"; "Aadhar";
    "Team Size" ].

(** [GET /api/export-excel], a route of the in-memory server; the
    disk-backed server has no such route. *)
Definition export_excel (v : server) (s : State) : response * State :=
  match v with
  | InMemory =>
      match db s with
      | [] =>
          ({| status := 404;
              payload := JError "No registrations found to export" |}, s)
      | registrations =>
          ({| status := 200;
              payload := JWorkbook (export_header :: map export_row registrations) |},
           s)
      end
  | DiskBacked =>
      ({| status := 404; payload := JError "Cannot GET /api/export-excel" |}, s)
  end.

(** ** The server as a transition system *)

Inductive request : Type :=
| POST_register (env : Env) (req : Request)
| GET_confirm (id : string)
| GET_export_excel.

Definition handle (v : server) (r : request) (s : State) : response * State :=
  match r with
  | POST_register env req => register v env req s
  | GET_confirm id => confirm id s
  | GET_export_excel => export_excel v s
  end.

(** The requests of [rs] served one after the other. *)
Fixpoint run (v : server) (rs : list request) (s : State) : State :=
  match rs with
  | [] => s
  | r :: rs' => run v rs' (snd (handle v r s))
  end.

Definition initial : State := {| db := []; outbox := [] |}.

End Handlers.

(** ** A concrete instance, to run the handlers

    The digest of the instance is the hexadecimal text of the bytes, which
    has no collisions; its [isEmail] asks for one [@] between two
    non-empty parts and its [normalizeEmail] lowercases. *)

Definition hex_char (n : N) : ascii :=
  if (n <? 10)%N then ascii_of_N (48 + n) else ascii_of_N (87 + n).

Fixpoint hex (bs : list Byte.byte) : string :=
  match bs with
  | [] => EmptyString
  | b :: bs' =>
      let n := Byte.to_N b in
      String (hex_char (n / 16)) (String (hex_char (n mod 16)) (hex bs'))
  end.

Fixpoint count_at (s : string) : nat :=
  match s with
  | EmptyString => O
  | String c s' => ((if (char_code c =? 64)%nat then 1 else 0) + count_at s')%nat
  end.

Definition simple_isEmail (s : string) : bool :=
  match index 0 "@" s with
  | Some i =>
      (0 <? i)%nat && (i + 1 <? String.length s)%nat && (count_at s =? 1)%nat
  | None => false
  end.

#[export] Instance sample_lib : Lib :=
  {| md5 := hex; sha256 := hex;
     isEmail := simple_isEmail; normalizeEmail := toLowerCase;
     refuses_at_limit := true; BACKEND_URL := None |}.

Definition bytes_of (s : string) : list Byte.byte := list_byte_of_string s.

Definition pdf (name content : string) : File :=
  {| originalname := name; mimetype := "application/pdf";
     buffer := bytes_of content |}.

Definition sample_body (id ev team mail phone uid : string) : Body.t :=
  {| Body.registrationId := id; Body.event := ev; Body.teamName := team;
     Body.teamLeaderName := "Asha Rao"; Body.email := mail;
     Body.mobile := phone; Body.gender := "F"; Body.college := "HIET";
     Body.course := "BTech"; Body.year := "2"; Body.rollno := "17";
     Body.aadhar := uid; Body.teamSize := "3" |}.

Definition sample_env (t : Z) : Env :=
  {| now_aadharImage := t; now_collegeId := t; now := t; sendMail := Delivered;
     shared_upload := [] |}.

Definition alpha : Request :=
  {| body := sample_body "r-1" "robo-race" "Alpha" "Asha@Example.com"
               "9876543210" "123412341234";
     files_aadharImage := Some (pdf "aadhar.pdf" "AADHAR-1");
     files_collegeId := Some (pdf "college.pdf" "COLLEGE-1");
     collegeId_first := false |}.

(** A second team, whose Aadhar upload is the College ID of [alpha]. *)
Definition beta : Request :=
  {| body := sample_body "r-2" "code-sprint" "Beta" "ravi@example.com"
               "9876500000" "567856785678";
     files_aadharImage := Some (pdf "scan.pdf" "COLLEGE-1");
     files_collegeId := Some (pdf "id.pdf" "COLLEGE-2");
     collegeId_first := false |}.

(** A team whose Aadhar number is twelve letters. *)
Definition gamma : Request :=
  {| body := sample_body "r-3" "quiz" "Gamma" "meera@example.com"
               "9123456780" "ABCDEFGHIJKL";
     files_aadharImage := Some (pdf "a.pdf" "AADHAR-3");
     files_collegeId := Some (pdf "c.pdf" "COLLEGE-3");
     collegeId_first := false |}.

(** A team whose mobile number carries the country code. *)
Definition delta : Request :=
  {| body := sample_body "r-4" "quiz" "Delta" "kiran@example.com"
               "+919876543210" "432143214321";
     files_aadharImage := Some (pdf "a.pdf" "AADHAR-4");
     files_collegeId := Some (pdf "c.pdf" "COLLEGE-4");
     collegeId_first := false |}.

(** The team of [alpha] again, with the email in lower case, another
    registration id, another team name and other documents. *)
Definition alpha_again : Request :=
  {| body := sample_body "r-5" "robo-race" "Alpha Two" "asha@example.com"
               "9000000001" "111122223333";
     files_aadharImage := Some (pdf "a.pdf" "AADHAR-5");
     files_collegeId := Some (pdf "c.pdf" "COLLEGE-5");
     collegeId_first := false |}.

(** The Aadhar upload of [alpha] under another file name. *)
Definition epsilon : Request :=
  {| body := sample_body "r-6" "hackathon" "Epsilon" "dev@example.com"
               "9000000002" "444455556666";
     files_aadharImage := Some (pdf "renamed.pdf" "AADHAR-1");
     files_collegeId := Some (pdf "c.pdf" "COLLEGE-6");
     collegeId_first := false |}.

(** The team name of [alpha] for another event. *)
Definition zeta : Request :=
  {| body := sample_body "r-7" "hackathon" " Alpha " "zoya@example.com"
               "9000000003" "777788889999";
     files_aadharImage := Some (pdf "a.pdf" "AADHAR-7");
     files_collegeId := Some (pdf "c.pdf" "COLLEGE-7");
     collegeId_first := false |}.

Definition failing_env (t : Z) : Env :=
  {| now_aadharImage := t; now_collegeId := t; now := t;
     sendMail := TransportError "connect ECONNREFUSED";
     shared_upload := [] |}.

(** The state of a server that has accepted [alpha] and nothing else. *)
Definition after_alpha (v : server) : State :=
  snd (register v (sample_env 1700) alpha initial).

(** The record that a server stores for [alpha]. *)
Definition alpha_record (v : server) : Registration :=
  new_Registration v (sample_env 1700) (sanitized (body alpha))
    (pdf "aadhar.pdf" "AADHAR-1") (pdf "college.pdf" "COLLEGE-1").

(** The team of [alpha] once more for the same event, with white space
    after the team name and with other documents. *)
Definition eta : Request :=
  {| body := sample_body "r-8" "robo-race" "Alpha " "tara@example.com"
               "9000000004" "121234345656";
     files_aadharImage := Some (pdf "a.pdf" "AADHAR-8");
     files_collegeId := Some (pdf "c.pdf" "COLLEGE-8");
     collegeId_first := false |}.

(** A team whose two uploads bear one file name. *)
Definition theta : Request :=
  {| body := sample_body "r-9" "debate" "Theta" "uma@example.com"
               "9000000005" "909090909090";
     files_aadharImage := Some (pdf "doc.pdf" "AADHAR-9");
     files_collegeId := Some (pdf "doc.pdf" "COLLEGE-9");
     collegeId_first := false |}.

(** The two uploads are named in the same millisecond [t]; the file that
    both were written to holds the bytes of the College ID of [theta]
    when it is read back. *)
Definition one_path_env (t : Z) : Env :=
  {| now_aadharImage := t; now_collegeId := t; now := t; sendMail := Delivered;
     shared_upload := bytes_of "COLLEGE-9" |}.

(** Another team, every field of which differs from that of [theta], with
    the Aadhar upload of [theta] under another file name. *)
Definition iota : Request :=
  {| body :=
       {| Body.registrationId := "r-10"; Body.event := "chess";
          Body.teamName := "Iota"; Body.teamLeaderName := "Vikram Shah";
          Body.email := "vikram@example.com"; Body.mobile := "9000000006";
          Body.gender := "M"; Body.college := "GLA"; Body.course := "MCA";
          Body.year := "1"; Body.rollno := "42";
          Body.aadhar := "808080808080"; Body.teamSize := "2" |};
     files_aadharImage := Some (pdf "aadhar.pdf" "AADHAR-9");
     files_collegeId := Some (pdf "college.pdf" "COLLEGE-10");
     collegeId_first := false |}.

(** A PDF of 300001 bytes. *)
Definition large_pdf (name : string) : File :=
  {| originalname := name; mimetype := "application/pdf";
     buffer := repeat Byte.x00 (Z.to_nat 300001) |}.

(** A team whose College ID is too large, and comes first in the body. *)
Definition kappa : Request :=
  {| body := sample_body "r-11" "quiz" "Kappa" "neha@example.com"
               "9000000007" "707070707070";
     files_aadharImage := Some (pdf "aadhar.pdf" "AADHAR-11");
     files_collegeId := Some (large_pdf "college.pdf");
     collegeId_first := true |}.

(** The state of a server that has accepted [theta] and nothing else. *)
Definition after_theta (v : server) : State :=
  snd (register v (one_path_env 1710) theta initial).

(** ** Vocabulary of the specification *)

Fixpoint all_chars (p : ascii -> bool) (s : string) : bool :=
  match s with
  | EmptyString => true
  | String c s' => p c && all_chars p s'
  end.

(** "Ten digits starting with 6-9", in the words of the specification. *)
Definition ten_digit_mobile (s : string) : bool :=
  (String.length s =? 10)%nat && all_chars is_digit s
  && match s with
     | String c _ => in_range "6" "9" c
     | EmptyString => false
     end.

(** What is left of [s] after the prefix [p]. *)
Fixpoint after (p s : string) : option string :=
  match p, s with
  | EmptyString, _ => Some s
  | String a p', String c s' => if Ascii.eqb a c then after p' s' else None
  | String _ _, EmptyString => None
  end.

(** A ten-digit mobile number behind the prefix [p]. *)
Definition prefixed_mobile (p s : string) : bool :=
  match after p s with
  | Some t => ten_digit_mobile t
  | None => false
  end.

(** "Exactly 12 digits", in the words of the specification. *)
Definition twelve_digits (s : string) : bool :=
  (String.length s =? 12)%nat && all_chars is_digit s.

(** The mobile numbers that each server lets through, said without a
    pattern: ten digits starting with 6-9, and on the disk-backed server
    also such a number behind [91], [+91] or [0]. *)
Definition mobile_accepted_by (v : server) (s : string) : bool :=
  match v with
  | InMemory => ten_digit_mobile s
  | DiskBacked =>
      ten_digit_mobile s || prefixed_mobile "91" s
      || prefixed_mobile "+91" s || prefixed_mobile "0" s
  end.

(** A refusal of the route: status 400 or 500. *)
Definition rejection (res : response) : Prop :=
  status res = 400%Z \/ status res = 500%Z.

(** The two documents agree on every field but [isConfirmed]. *)
Definition same_except_isConfirmed (d d' : Registration) : Prop :=
  registrationId d' = registrationId d /\ event d' = event d
  /\ teamName d' = teamName d /\ teamLeaderName d' = teamLeaderName d
  /\ email d' = email d /\ mobile d' = mobile d /\ gender d' = gender d
  /\ college d' = college d /\ course d' = course d /\ year d' = year d
  /\ rollno d' = rollno d /\ aadhar d' = aadhar d /\ teamSize d' = teamSize d
  /\ aadharImage d' = aadharImage d /\ aadharImageHash d' = aadharImageHash d
  /\ collegeId d' = collegeId d /\ collegeIdHash d' = collegeIdHash d
  /\ createdAt d' = createdAt d.

(** The filter [{ registrationId }] of the confirmation route. *)
Definition has_id (id : string) (d : Registration) : bool :=
  (registrationId d =? id)%string.

Definition not_found : response :=
  {| status := 404; payload := JError "Registration not found" |}.

Definition already_confirmed : response :=
  {| status := 400; payload := JError "Email already confirmed" |}.

Definition confirmed_ok : response :=
  {| status := 200; payload := JMessage "Email confirmed successfully" |}.

(** A stored document as it may be found later: the same in every field
    but [isConfirmed], which does not go back to [false]. *)
Definition evolves (d d' : Registration) : Prop :=
  same_except_isConfirmed d d'
  /\ (isConfirmed d = true -> isConfirmed d' = true).

Section Vocabulary.

Context {L : Lib}.

(** The type filter lets the file of the slot through, if there is one. *)
Definition filter_passes (v : server) (file : option File) : bool :=
  match file with
  | Some f => fileFilter v f
  | None => true
  end.

(** The file of the slot has more than 300000 bytes. *)
Definition too_large (file : option File) : bool :=
  match file with
  | Some f => (300000 <? Z.of_nat (List.length (buffer f)))%Z
  | None => false
  end.

(** The two uploads of a request do not end up in one file: this is so on
    the in-memory server, which stores none, and on the disk-backed server
    when the stored paths differ. *)
Definition stored_apart (v : server) (env : Env) (fa fc : File) : Prop :=
  v = DiskBacked -> same_stored_path env fa fc = false.

(** The digest of an upload of the request: the one that the route
    computes when both uploads are there, and the digest of the bytes of
    the upload when the other one is missing. *)
Definition request_digest (v : server) (env : Env) (req : Request)
  (own : File) : string :=
  match files_aadharImage req, files_collegeId req with
  | Some fa, Some fc => upload_digest v env fa fc own
  | _, _ => calculateFileHash v (buffer own)
  end.

(** A stored record collides with the submission on one of the axes of
    the duplicate check: a document digest in its own column, the pair
    (event, teamName), or one of the five unique fields. *)
Definition conflict (v : server) (env : Env) (req : Request) (s : State)
  : Prop :=
  let b := sanitized (body req) in
  exists d, In d (db s)
    /\ ((exists fa, files_aadharImage req = Some fa
                    /\ aadharImageHash d = request_digest v env req fa)
        \/ (exists fc, files_collegeId req = Some fc
                       /\ collegeIdHash d = request_digest v env req fc)
        \/ (event d = Body.event b /\ teamName d = Body.teamName b)
        \/ registrationId d = Body.registrationId b
        \/ teamName d = Body.teamName b
        \/ email d = Body.email b
        \/ mobile d = Body.mobile b
        \/ aadhar d = Body.aadhar b).

(** The answers that the specification calls [DuplicateDocument]. *)
Definition DuplicateDocument (v : server) (res : response) : Prop :=
  match v with
  | DiskBacked =>
      res = bad_request "This Aadhar card image has already been uploaded"
      \/ res = bad_request "This College ID image has already been uploaded"
  | InMemory =>
      res = bad_request
              "This Aadhar card or College ID image has already been uploaded"
  end.

(** The answer that the specification calls [DuplicateField]. *)
Definition DuplicateField (v : server) (field : string) : response :=
  bad_request
    (match v with
     | DiskBacked => field
     | InMemory => capitalize field
     end ++ " already exists").

(** The five unique fields are pairwise distinct over the collection. *)
Definition unique_fields (docs : list Registration) : Prop :=
  NoDup (map registrationId docs) /\ NoDup (map teamName docs)
  /\ NoDup (map email docs) /\ NoDup (map mobile docs)
  /\ NoDup (map aadhar docs).

End Vocabulary.

Section VocabularyOfDigests.

Context {L : Lib}.

(** One of the two digests of the submission is stored, in either
    column, in a record of the collection. *)
Definition digest_seen (v : server) (env : Env) (req : Request) (s : State)
  : Prop :=
  exists d f, In d (db s)
    /\ (files_aadharImage req = Some f \/ files_collegeId req = Some f)
    /\ (aadharImageHash d = request_digest v env req f
        \/ collegeIdHash d = request_digest v env req f).

End VocabularyOfDigests.

Section VocabularyOfStates.

Context {L : Lib}.

(** No two records share a digest in the same column. *)
Definition unique_digests (docs : list Registration) : Prop :=
  NoDup (map aadharImageHash docs) /\ NoDup (map collegeIdHash docs).

(** The mail that the route sends for a stored record. *)
Definition mail_of (v : server) (d : Registration) : Mail :=
  {| to := email d;
     subject := "Thank You for Registering at HIET Tech Fest!";
     confirmationLink := backend_url v ++ "/api/confirm/" ++ registrationId d |}.

(** Every recorded mail is the mail of a stored record, and there are no
    more mails than records. *)
Definition mails_have_records (v : server) (s : State) : Prop :=
  (forall m, In m (outbox s) -> exists d, In d (db s) /\ m = mail_of v d)
  /\ (List.length (outbox s) <= List.length (db s))%nat.

(** What the request validation has checked of a stored record. *)
Definition well_formed (v : server) (d : Registration) : Prop :=
  schema_valid v d = true
  /\ String.length (aadhar d) = 12%nat
  /\ mobile_accepted_by v (mobile d) = true
  /\ (1 <= teamSize d <= 4)%Z
  /\ trim (teamName d) = teamName d
  /\ trim (teamLeaderName d) = teamLeaderName d.

End VocabularyOfStates.

(** [p] is a prefix of [s]. *)
Definition starts_with (p s : string) : bool :=
  match after p s with
  | Some _ => true
  | None => false
  end.

(** [p] occurs somewhere in [s]. *)
Fixpoint contains (p s : string) : bool :=
  starts_with p s
  || match s with
     | EmptyString => false
     | String _ s' => contains p s'
     end.

(** One of the four words of the upload filter occurs in [s]. *)
Definition names_a_file_type (s : string) : bool :=
  contains "jpeg" s || contains "jpg" s || contains "png" s || contains "pdf" s.

(** ** The registration form

    The checks of [validateForm] and [handleChange] in
    [FRONTEND/src/Components/Registration.jsx] on the mobile number, the
    Aadhar number and the size of an upload. *)
Module Form.

Definition MAX_FILE_SIZE : Z := 300000.

(** [/^[0-9]{12}$/] *)
Definition aadhar_pattern : regex := Times 12 (Rng "0" "9").

(** [formData.mobile.match(/^[6-9][0-9]{9}$/)] *)
Definition mobile_ok (mobile : string) : bool := matches mobile_pattern mobile.

(** [formData.aadhar.match(/^[0-9]{12}$/)] *)
Definition aadhar_ok (aadhar : string) : bool := matches aadhar_pattern aadhar.

(** [file.size > MAX_FILE_SIZE] refuses the file. *)
Definition file_ok (size : Z) : bool := negb (MAX_FILE_SIZE <? size)%Z.

End Form.

(** [/^\+?0*[1-4]$/]: an optional plus sign, zeroes, and one digit from 1
    to 4. *)
Definition team_size_pattern : regex :=
  Seq (Opt (Chr "+")) (Seq (Star (Chr "0")) (Rng "1" "4")).

(** Zeroes followed by one digit from 1 to 4. *)
Fixpoint zeros_then_digit (s : string) : bool :=
  match s with
  | EmptyString => false
  | String c s' =>
      if Ascii.eqb c "0" then zeros_then_digit s'
      else in_range "1" "4" c
           && match s' with EmptyString => true | _ => false end
  end.

(** The collection after a confirmation request for [id]: the first
    record of that id, if there is one, has its flag set. *)
Fixpoint confirm_first (id : string) (docs : list Registration)
  : list Registration :=
  match docs with
  | [] => []
  | d :: docs' =>
      if has_id id d then confirmed d :: docs' else d :: confirm_first id docs'
  end.

(** * Properties *)

(** ** The validators on examples *)

Example mobile_pattern_examples :
  matches mobile_pattern "9876543210" = true
  /\ matches mobile_pattern "5876543210" = false
  /\ matches mobile_pattern "98765432100" = false.
Proof. repeat split; reflexivity. Qed.

Example en_IN_examples :
  isMobilePhone_en_IN "9876543210" = true
  /\ isMobilePhone_en_IN "09876543210" = true
  /\ isMobilePhone_en_IN "919876543210" = true
  /\ isMobilePhone_en_IN "+09876543210" = false.
Proof. repeat split; reflexivity. Qed.

Example fileTypes_examples :
  test fileTypes "image/png" = true /\ test fileTypes "text/plain" = false.
Proof. split; reflexivity. Qed.

Example isInt_examples :
  isInt 1 4 "04" = true /\ isInt 1 4 "5" = false /\ isInt 1 4 "0" = false
  /\ isInt 1 4 "4.0" = false.
Proof. repeat split; reflexivity. Qed.

Example trim_example : trim "  Team A  " = "Team A".
Proof. reflexivity. Qed.

Example extname_examples :
  extname "scan.PDF" = ".PDF" /\ extname ".bashrc" = ""
  /\ extname "photo" = "" /\ extname "a.tar.gz" = ".gz".
Proof. repeat split; reflexivity. Qed.

(** ** The matcher *)

Lemma accepts_Void : forall s, accepts Void s = false.
Proof. induction s as [|c s IH]; simpl; auto. Qed.

Lemma accepts_Eps : forall s,
  accepts Eps s = match s with EmptyString => true | _ => false end.
Proof. destruct s as [|c s]; simpl; auto using accepts_Void. Qed.

Lemma accepts_Alt : forall s a b,
  accepts (Alt a b) s = accepts a s || accepts b s.
Proof. induction s as [|c s IH]; intros a b; simpl; auto. Qed.

Lemma accepts_Seq_Void : forall s r, accepts (Seq Void r) s = false.
Proof. induction s as [|c s IH]; intros r; simpl; auto. Qed.

Lemma accepts_Seq_Eps : forall s r, accepts (Seq Eps r) s = accepts r s.
Proof.
  destruct s as [|c s]; intros r; simpl; auto.
  now rewrite accepts_Alt, accepts_Seq_Void.
Qed.

Lemma accepts_Seq_Cls : forall rs r s,
  accepts (Seq (Cls rs) r) s =
  match s with
  | EmptyString => false
  | String c s' => in_class rs c && accepts r s'
  end.
Proof.
  intros rs r [|c s]; simpl; auto.
  destruct (in_class rs c); simpl.
  - apply accepts_Seq_Eps.
  - apply accepts_Seq_Void.
Qed.

Lemma accepts_Seq_Alt : forall s a b r,
  accepts (Seq (Alt a b) r) s = accepts (Seq a r) s || accepts (Seq b r) s.
Proof.
  induction s as [|c s IH]; intros a b r; simpl.
  - destruct (nullable a), (nullable b), (nullable r); reflexivity.
  - destruct (nullable a), (nullable b); simpl;
      repeat rewrite accepts_Alt; rewrite IH;
      destruct (accepts (Seq (deriv c a) r) s),
               (accepts (Seq (deriv c b) r) s),
               (accepts (deriv c r) s); reflexivity.
Qed.

Lemma accepts_Seq_assoc : forall s a b r,
  accepts (Seq (Seq a b) r) s = accepts (Seq a (Seq b r)) s.
Proof.
  induction s as [|c s IH]; intros a b r; simpl.
  - now rewrite andb_assoc.
  - destruct (nullable a), (nullable b); simpl;
      repeat rewrite accepts_Alt; repeat rewrite accepts_Seq_Alt;
      repeat rewrite accepts_Alt; rewrite ?IH;
      try reflexivity; now rewrite ?orb_assoc.
Qed.

Lemma accepts_Times_Cls : forall rs n s,
  accepts (Times n (Cls rs)) s =
  (String.length s =? n)%nat && all_chars (in_class rs) s.
Proof.
  intros rs; induction n as [|n IH]; intros s; simpl Times.
  - rewrite accepts_Eps. destruct s; reflexivity.
  - rewrite accepts_Seq_Cls. destruct s as [|c s]; [reflexivity|].
    rewrite IH; simpl.
    destruct (in_class rs c), (String.length s =? n)%nat; reflexivity.
Qed.

Lemma in_range_same : forall a c, in_range a a c = Ascii.eqb a c.
Proof.
  intros a c. unfold in_range, char_code.
  destruct (Ascii.eqb_spec a c) as [->|Hne].
  - now rewrite Nat.leb_refl.
  - apply andb_false_iff.
    destruct (Nat.leb_spec (nat_of_ascii a) (nat_of_ascii c)) as [H1|H1]; auto.
    destruct (Nat.leb_spec (nat_of_ascii c) (nat_of_ascii a)) as [H2|H2]; auto.
    exfalso. apply Hne.
    rewrite <- (ascii_nat_embedding a), <- (ascii_nat_embedding c).
    f_equal. lia.
Qed.

Lemma accepts_Seq_Lit : forall p r s,
  accepts (Seq (Lit p) r) s =
  match after p s with
  | Some t => accepts r t
  | None => false
  end.
Proof.
  induction p as [|a p IH]; intros r s; simpl Lit; simpl after.
  - apply accepts_Seq_Eps.
  - unfold Chr. rewrite accepts_Seq_assoc, accepts_Seq_Cls.
    destruct s as [|c s]; [reflexivity|].
    simpl in_class. rewrite orb_false_r. simpl fst; simpl snd.
    rewrite in_range_same.
    destruct (Ascii.eqb a c); simpl; auto.
Qed.

Lemma accepts_Seq_Chr : forall a r s,
  accepts (Seq (Chr a) r) s =
  match after (String a EmptyString) s with
  | Some t => accepts r t
  | None => false
  end.
Proof.
  intros a r s. unfold Chr. rewrite accepts_Seq_Cls.
  destruct s as [|c s]; simpl; [reflexivity|].
  rewrite orb_false_r, in_range_same.
  destruct (Ascii.eqb a c); reflexivity.
Qed.

Lemma class_6789 : forall c,
  in_class [("6", "6"); ("7", "7"); ("8", "8"); ("9", "9")]%char c
  = in_range "6" "9" c.
Proof. intros [[] [] [] [] [] [] [] []]; reflexivity. Qed.

Lemma class_digit : forall c, in_class [("0", "9")]%char c = is_digit c.
Proof. intros c. unfold in_class, is_digit. simpl. apply orb_false_r. Qed.

Lemma all_chars_ext : forall p q s,
  (forall c, p c = q c) -> all_chars p s = all_chars q s.
Proof.
  intros p q s H. induction s as [|c s IH]; simpl; [reflexivity|].
  now rewrite H, IH.
Qed.

Lemma six_to_nine_is_digit : forall c, in_range "6" "9" c = true -> is_digit c = true.
Proof. intros [[] [] [] [] [] [] [] []]; simpl; intros H; auto; discriminate H. Qed.

Lemma ten_digit_tail : forall rs s,
  (forall c, in_class rs c = in_range "6" "9" c) ->
  accepts (Seq (Cls rs) (Times 9 (Rng "0" "9"))) s = ten_digit_mobile s.
Proof.
  intros rs s Hrs. rewrite accepts_Seq_Cls. unfold ten_digit_mobile.
  destruct s as [|c s]; [reflexivity|].
  unfold Rng. rewrite accepts_Times_Cls, Hrs.
  rewrite (all_chars_ext _ _ s class_digit).
  simpl String.length. simpl all_chars.
  change (S (String.length s) =? 10)%nat with (String.length s =? 9)%nat.
  destruct (in_range "6" "9" c) eqn:E.
  - rewrite (six_to_nine_is_digit _ E). simpl.
    now rewrite andb_true_r.
  - simpl. now rewrite andb_false_r.
Qed.

Lemma mobile_pattern_spec : forall s,
  matches mobile_pattern s = ten_digit_mobile s.
Proof.
  intros s. unfold matches, mobile_pattern, Rng at 1.
  apply ten_digit_tail. intros c. simpl. apply orb_false_r.
Qed.

Lemma after_cons : forall a p c s,
  after (String a p) (String c s) = if Ascii.eqb a c then after p s else None.
Proof. reflexivity. Qed.

Lemma en_IN_spec : forall s,
  isMobilePhone_en_IN s =
  ten_digit_mobile s || prefixed_mobile "91" s
  || prefixed_mobile "+91" s || prefixed_mobile "0" s.
Proof.
  intros s. unfold isMobilePhone_en_IN, en_IN, Opt.
  rewrite accepts_Seq_Alt, accepts_Seq_Eps, (ten_digit_tail _ s class_6789).
  rewrite accepts_Seq_Alt, accepts_Seq_assoc, accepts_Seq_Alt, accepts_Seq_Eps.
  rewrite accepts_Seq_Lit, !accepts_Seq_Chr.
  unfold prefixed_mobile.
  rewrite <- !orb_assoc. f_equal. f_equal; [|f_equal].
  - destruct (after "91" s) as [t|]; [|reflexivity].
    apply ten_digit_tail, class_6789.
  - destruct s as [|c s]; [reflexivity|]. rewrite !after_cons.
    destruct (Ascii.eqb "+" c); [|reflexivity].
    change (after "" s) with (Some s). cbv beta iota.
    rewrite accepts_Seq_Lit.
    destruct (after "91" s) as [t|]; [|reflexivity].
    apply ten_digit_tail, class_6789.
  - destruct (after "0" s) as [t|]; [|reflexivity].
    apply ten_digit_tail, class_6789.
Qed.

Section Route.
Context {L : Lib}.

Lemma save_inr : forall v doc docs docs',
  save v doc docs = inr docs' ->
  docs' = (docs ++ [doc])%list /\ schema_valid v doc = true
  /\ duplicate_key v doc docs = None.
Proof.
  intros v doc docs docs'. unfold save.
  destruct (schema_valid v doc); [|discriminate].
  destruct (duplicate_key v doc docs); [discriminate|].
  intros H; inversion H; auto.
Qed.

Lemma save_inl : forall v doc docs err,
  save v doc docs = inl err ->
  rejection (catch_register v err).
Proof.
  intros v doc docs err. unfold save.
  destruct (schema_valid v doc).
  - destruct (duplicate_key v doc docs); [|discriminate].
    intros H; inversion H; subst. left. reflexivity.
  - intros H; inversion H; subst. unfold catch_register; simpl.
    destruct v; [right|left]; reflexivity.
Qed.

Lemma refuse_rejection : forall v m,
  match refuse v m with
  | inl err => rejection (catch_register v err)
  | inr res => rejection res
  end.
Proof. intros [] m; simpl; left; reflexivity. Qed.

Lemma precheck_inl : forall v env b req s out,
  precheck v env b req s = inl out ->
  exists m, out = refuse v m.
Proof.
  intros v env b req s out. unfold precheck.
  destruct (files_aadharImage req) as [fa|]; [|intros H; inversion H; eauto].
  destruct (files_collegeId req) as [fc|]; [|intros H; inversion H; eauto].
  unfold duplicate_document.
  destruct v;
    repeat match goal with
           | |- context [match findOne ?f ?l with _ => _ end] =>
               destruct (findOne f l)
           end;
    intros H; inversion H; eexists; reflexivity.
Qed.

Lemma register_outcome : forall v env req s,
  (exists res, register v env req s = (res, s) /\ rejection res)
  \/ (exists doc,
        upload v req = None
        /\ validationResult v (body req) = []
        /\ precheck v env (sanitized (body req)) req s = inr doc
        /\ save v doc (db s) = inr (db s ++ [doc])%list
        /\ register v env req s =
           match sendMail env with
           | Delivered =>
               (success v (sanitized (body req)) doc,
                {| db := (db s ++ [doc])%list;
                   outbox := (outbox s
                              ++ [confirmation_mail v (sanitized (body req))])%list |})
           | TransportError m =>
               (catch_register v (mail_failure v m),
                {| db := (db s ++ [doc])%list; outbox := outbox s |})
           end).
Proof.
  intros v env req s. unfold register.
  destruct (upload v req) as [err|] eqn:Hup.
  { left. eexists; split; [reflexivity|]. destruct err; left; reflexivity. }
  destruct (validationResult v (body req)) as [|e errs] eqn:Hval.
  2:{ left. eexists; split; [reflexivity|]. left; reflexivity. }
  unfold try_register.
  destruct (precheck v env (sanitized (body req)) req s) as [out|doc] eqn:Hpre.
  { left. edestruct precheck_inl as [m Hm]; [exact Hpre|]; subst out.
    pose proof (refuse_rejection v m) as Hr.
    destruct (refuse v m); eexists; split; try reflexivity; exact Hr. }
  destruct (save v doc (db s)) as [err|docs] eqn:Hsave.
  { left. eexists; split; [reflexivity|]. eapply save_inl; eauto. }
  edestruct save_inr as (Hd & _ & _); [exact Hsave|]; subst docs.
  right. exists doc. repeat split; auto.
  unfold sendConfirmationEmail.
  destruct (sendMail env); simpl; [|reflexivity].
  destruct v; reflexivity.
Qed.
End Route.

Section Confirmation.
Context {L : Lib}.

Lemma findIndex_findOne : forall f docs,
  match findOne f docs with
  | Some d => exists i, findIndex f docs = Some i /\ nth_error docs i = Some d
              /\ f d = true
  | None => findIndex f docs = None /\ forall d, In d docs -> f d = false
  end.
Proof.
  intros f docs. unfold findOne.
  induction docs as [|d docs IH]; simpl.
  - split; [reflexivity|]. intros d [].
  - destruct (f d) eqn:Hf.
    + exists O. auto.
    + destruct (find f docs) as [d'|].
      * destruct IH as (i & Hi & Hn & Hd). exists (S i).
        rewrite Hi. auto.
      * destruct IH as [Hi Hall]. rewrite Hi. split; [reflexivity|].
        intros x [<-|Hx]; auto.
Qed.

Lemma findOne_updateAt_first : forall f g docs i d,
  findIndex f docs = Some i -> nth_error docs i = Some d ->
  f (g d) = true ->
  findOne f (updateAt i g docs) = Some (g d)
  /\ findIndex f (updateAt i g docs) = Some i.
Proof.
  intros f g docs. unfold findOne.
  induction docs as [|x docs IH]; intros i d; simpl.
  - discriminate.
  - destruct (f x) eqn:Hfx.
    + intros Hi Hn Hg. inversion Hi; subst. simpl in Hn. inversion Hn; subst.
      simpl. rewrite Hg. auto.
    + destruct (findIndex f docs) as [j|] eqn:Hj; [|discriminate].
      simpl. intros Hi Hn Hg. inversion Hi; subst. simpl in Hn.
      simpl. rewrite Hfx.
      destruct (IH j d eq_refl Hn Hg) as [H1 H2].
      rewrite H1, H2. auto.
Qed.

Lemma updateAt_Forall2 : forall (R : Registration -> Registration -> Prop) g,
  (forall d, R d d) -> (forall d, R d (g d)) ->
  forall docs i, Forall2 R docs (updateAt i g docs).
Proof.
  intros R g Hrefl Hg. induction docs as [|x docs IH]; intros i; simpl.
  - constructor.
  - destruct i as [|i]; constructor; auto.
    clear IH. induction docs; constructor; auto.
Qed.

End Confirmation.

Section Frame.
Context {L : Lib}.

Lemma same_except_refl : forall d, same_except_isConfirmed d d.
Proof. intros d. unfold same_except_isConfirmed. repeat split. Qed.

Lemma same_except_confirmed : forall d, same_except_isConfirmed d (confirmed d).
Proof. intros d. unfold same_except_isConfirmed. repeat split. Qed.

Lemma same_except_trans : forall a b c,
  same_except_isConfirmed a b -> same_except_isConfirmed b c ->
  same_except_isConfirmed a c.
Proof.
  unfold same_except_isConfirmed. intros a b c H1 H2.
  repeat match goal with H : _ /\ _ |- _ => destruct H end.
  repeat split; congruence.
Qed.

Lemma evolves_refl : forall d, evolves d d.
Proof. intros d. split; auto using same_except_refl. Qed.

Lemma evolves_confirmed : forall d, evolves d (confirmed d).
Proof. intros d. split; auto using same_except_confirmed. Qed.

Lemma evolves_trans : forall a b c, evolves a b -> evolves b c -> evolves a c.
Proof.
  intros a b c [H1 M1] [H2 M2]. split; eauto using same_except_trans.
Qed.

Lemma Forall2_refl_list : forall (R : Registration -> Registration -> Prop),
  (forall d, R d d) -> forall l, Forall2 R l l.
Proof. intros R H l. induction l; constructor; auto. Qed.

Lemma Forall2_trans_list : forall (R : Registration -> Registration -> Prop),
  (forall a b c, R a b -> R b c -> R a c) ->
  forall l1 l2 l3, Forall2 R l1 l2 -> Forall2 R l2 l3 -> Forall2 R l1 l3.
Proof.
  intros R HR l1 l2 l3 H12. revert l3.
  induction H12; intros l3 H23; inversion H23; subst; constructor; eauto.
Qed.

Lemma register_appends : forall v env req s,
  exists added, db (snd (register v env req s)) = (db s ++ added)%list.
Proof.
  intros v env req s.
  destruct (register_outcome v env req s) as [(res & -> & _)|(doc & _ & _ & _ & _ & ->)].
  - exists []. simpl. now rewrite app_nil_r.
  - exists [doc]. destruct (sendMail env); reflexivity.
Qed.

Lemma confirm_db : forall id s,
  db (snd (confirm id s)) = db s
  \/ exists i, db (snd (confirm id s)) = updateAt i confirmed (db s).
Proof.
  intros id s. unfold confirm.
  destruct (findOne _ (db s)) as [d|]; [|now left].
  destruct (findIndex _ (db s)) as [i|]; [|now left].
  destruct (isConfirmed d); [now left|]. right. exists i. reflexivity.
Qed.

Lemma export_excel_state : forall v s, snd (export_excel v s) = s.
Proof. intros [] s; simpl; [reflexivity|]. destruct (db s); reflexivity. Qed.

Lemma handle_evolves : forall v r s,
  exists kept added,
    db (snd (handle v r s)) = (kept ++ added)%list
    /\ Forall2 evolves (db s) kept.
Proof.
  intros v [env req|id|] s; simpl.
  - destruct (register_appends v env req s) as [added ->].
    exists (db s), added. split; auto using Forall2_refl_list, evolves_refl.
  - destruct (confirm_db id s) as [->|[i ->]].
    + exists (db s), []. rewrite app_nil_r.
      split; auto using Forall2_refl_list, evolves_refl.
    + eexists _, []. rewrite app_nil_r. split; [reflexivity|].
      apply updateAt_Forall2; auto using evolves_refl, evolves_confirmed.
  - rewrite export_excel_state. exists (db s), []. rewrite app_nil_r.
    split; auto using Forall2_refl_list, evolves_refl.
Qed.

Lemma run_evolves : forall v rs s,
  exists kept added,
    db (run v rs s) = (kept ++ added)%list /\ Forall2 evolves (db s) kept.
Proof.
  intros v rs. induction rs as [|r rs IH]; intros s; simpl.
  - exists (db s), []. rewrite app_nil_r.
    split; auto using Forall2_refl_list, evolves_refl.
  - destruct (handle_evolves v r s) as (k1 & a1 & E1 & F1).
    destruct (IH (snd (handle v r s))) as (k2 & a2 & E2 & F2).
    rewrite E1 in F2.
    apply Forall2_app_inv_l in F2 as (k2a & k2b & Fa & Fb & ->).
    exists k2a, (k2b ++ a2)%list. rewrite E2, app_assoc. split; [reflexivity|].
    eapply Forall2_trans_list; eauto using evolves_trans.
Qed.

End Frame.

Section ConfirmationContract.
Context {L : Lib}.

Lemma has_id_evolves : forall id d d',
  evolves d d' -> has_id id d' = has_id id d.
Proof.
  intros id d d' [H _]. unfold has_id.
  destruct H as [-> _]. reflexivity.
Qed.

Lemma findOne_evolves : forall id l kept added d,
  Forall2 evolves l kept ->
  findOne (has_id id) l = Some d ->
  exists d', findOne (has_id id) (kept ++ added)%list = Some d' /\ evolves d d'.
Proof.
  intros id l kept added d F. unfold findOne.
  induction F as [|x y l k Hxy F IH]; simpl; [discriminate|].
  rewrite (has_id_evolves id x y Hxy).
  destruct (has_id id x).
  - intros H; inversion H; subst. eauto.
  - exact IH.
Qed.

Lemma confirm_already : forall id s d,
  findOne (has_id id) (db s) = Some d -> isConfirmed d = true ->
  confirm id s = (already_confirmed, s).
Proof.
  intros id s d Hf Hc. unfold confirm. fold (has_id id).
  pose proof (findIndex_findOne (has_id id) (db s)) as Hi.
  rewrite Hf in *. destruct Hi as (i & -> & _ & _).
  rewrite Hc. reflexivity.
Qed.

Lemma nth_error_updateAt : forall g docs i j,
  nth_error (updateAt i g docs) j =
  if (j =? i)%nat then option_map g (nth_error docs j) else nth_error docs j.
Proof.
  intros g. induction docs as [|x docs IH]; intros i j; simpl.
  - destruct j; destruct (Nat.eqb _ i); reflexivity.
  - destruct i as [|i], j as [|j]; simpl; auto.
Qed.

(** C3.  The confirmation route has three outcomes.  With no record of the
    given id it answers 404 and leaves the state as it is; with a confirmed
    record it answers 400 "Email already confirmed" and leaves the state as
    it is; with an unconfirmed record it answers 200 and sets the flag of
    that record and nothing else, after which every later call for the same
    id, whatever requests came in between, answers 400 and changes
    nothing. *)
Theorem confirm_tri_state : forall id s,
  match findOne (has_id id) (db s) with
  | None =>
      (forall d, In d (db s) -> registrationId d <> id)
      /\ confirm id s = (not_found, s)
  | Some d =>
      if isConfirmed d then confirm id s = (already_confirmed, s)
      else
        exists i s',
          nth_error (db s) i = Some d
          /\ confirm id s = (confirmed_ok, s')
          /\ outbox s' = outbox s
          /\ nth_error (db s') i = Some (confirmed d)
          /\ (forall j, j <> i -> nth_error (db s') j = nth_error (db s) j)
          /\ List.length (db s') = List.length (db s)
          /\ confirm id s' = (already_confirmed, s')
          /\ (forall v rs,
                confirm id (run v rs s') = (already_confirmed, run v rs s'))
  end.
Proof.
  intros id s.
  pose proof (findIndex_findOne (has_id id) (db s)) as Hi.
  destruct (findOne (has_id id) (db s)) as [d|] eqn:Hf.
  - destruct (isConfirmed d) eqn:Hc.
    + eapply confirm_already; eauto.
    + destruct Hi as (i & Hi & Hn & Hd).
      exists i, {| db := updateAt i confirmed (db s); outbox := outbox s |}.
      assert (Hfirst : findOne (has_id id) (updateAt i confirmed (db s))
                       = Some (confirmed d)).
      { eapply findOne_updateAt_first; eauto. }
      repeat split.
      * exact Hn.
      * unfold confirm. fold (has_id id). rewrite Hf, Hi, Hc. reflexivity.
      * simpl. rewrite nth_error_updateAt, Nat.eqb_refl, Hn. reflexivity.
      * intros j Hj. simpl. rewrite nth_error_updateAt.
        destruct (Nat.eqb_spec j i); [contradiction|reflexivity].
      * simpl. clear. generalize i. induction (db s) as [|x l IH]; intros [|k]; simpl; auto.
      * eapply confirm_already; simpl; eauto.
      * intros v rs.
        destruct (run_evolves v rs
                    {| db := updateAt i confirmed (db s); outbox := outbox s |})
          as (kept & added & E & F).
        simpl in F.
        destruct (findOne_evolves id _ _ added _ F Hfirst) as (d' & Hd' & _ & Hm).
        eapply confirm_already; [rewrite E; exact Hd'|]. apply Hm. reflexivity.
  - destruct Hi as [Hi Hall]. split.
    + intros d Hin Heq. apply Hall in Hin. unfold has_id in Hin.
      rewrite Heq, String.eqb_refl in Hin. discriminate.
    + unfold confirm. fold (has_id id). rewrite Hf. reflexivity.
Qed.

(** C9.  No request changes a field of a stored record other than
    [isConfirmed], and none removes a record: after any sequence of
    requests the records that were stored are still there, in place and
    equal in every other field; the confirmation route keeps the
    collection as long as it was; the registration route only appends; the
    export route returns the state it was given. *)
Theorem records_change_only_isConfirmed :
  (forall v rs s,
     exists kept added,
       db (run v rs s) = (kept ++ added)%list
       /\ Forall2 same_except_isConfirmed (db s) kept)
  /\ (forall id s,
        Forall2 same_except_isConfirmed (db s) (db (snd (confirm id s))))
  /\ (forall v env req s,
        exists added, db (snd (register v env req s)) = (db s ++ added)%list)
  /\ (forall v s, snd (export_excel v s) = s).
Proof.
  repeat split.
  - intros v rs s. destruct (run_evolves v rs s) as (kept & added & E & F).
    exists kept, added. split; [exact E|].
    clear E. induction F as [|x y l k [H _] F IH]; constructor; auto.
  - intros id s. destruct (confirm_db id s) as [->|[i ->]].
    + apply Forall2_refl_list, same_except_refl.
    + apply updateAt_Forall2; auto using same_except_refl, same_except_confirmed.
  - apply register_appends.
  - apply export_excel_state.
Qed.

End ConfirmationContract.

Section Duplicates.
Context {L : Lib}.

Lemma findOne_None : forall f docs,
  findOne f docs = None -> forall d, In d docs -> f d = false.
Proof. intros f docs H d Hin. exact (find_none f docs H d Hin). Qed.

Lemma findOne_found : forall f docs d,
  In d docs -> f d = true -> exists d', findOne f docs = Some d'.
Proof.
  intros f docs d Hin Hf. unfold findOne.
  destruct (find f docs) as [d'|] eqn:E; eauto.
  rewrite (find_none f docs E d Hin) in Hf. discriminate.
Qed.

Lemma precheck_inr : forall v env b req s doc,
  precheck v env b req s = inr doc ->
  exists fa fc,
    files_aadharImage req = Some fa /\ files_collegeId req = Some fc
    /\ doc = new_Registration v env b fa fc
    /\ (forall d, In d (db s) ->
          aadharImageHash d <> upload_digest v env fa fc fa
          /\ collegeIdHash d <> upload_digest v env fa fc fc
          /\ ~ (event d = Body.event b /\ teamName d = Body.teamName b)).
Proof.
  intros v env b req s doc. unfold precheck.
  destruct (files_aadharImage req) as [fa|]; [|discriminate].
  destruct (files_collegeId req) as [fc|]; [|discriminate].
  destruct (findOne (fun d => (aadharImageHash d =? upload_digest v env fa fc fa)%string)
              (db s)) eqn:Ha.
  { destruct v; simpl;
      repeat match goal with
             | |- context [match findOne ?f ?l with _ => _ end] =>
                 destruct (findOne f l)
             end; discriminate. }
  destruct (findOne (fun d => (collegeIdHash d =? upload_digest v env fa fc fc)%string)
              (db s)) eqn:Hc.
  { destruct v; discriminate. }
  replace (duplicate_document v None None) with (@None (JsError + response))
    by (destruct v; reflexivity).
  destruct (findOne (fun d => (event d =? Body.event b)%string
                              && (teamName d =? Body.teamName b)%string)
              (db s)) eqn:Ht; [discriminate|].
  intros H; inversion H; subst. exists fa, fc.
  split; [reflexivity|]. split; [reflexivity|]. split; [reflexivity|].
  intros d Hin. split; [|split].
  - intros E. apply (findOne_None _ _ Ha) in Hin.
    rewrite E, String.eqb_refl in Hin. discriminate.
  - intros E. apply (findOne_None _ _ Hc) in Hin.
    rewrite E, String.eqb_refl in Hin. discriminate.
  - intros [E1 E2]. apply (findOne_None _ _ Ht) in Hin.
    simpl in Hin. rewrite E1, E2, !String.eqb_refl in Hin. discriminate.
Qed.

Lemma duplicate_key_None : forall v doc docs,
  duplicate_key v doc docs = None ->
  forall d, In d docs ->
    registrationId d <> registrationId doc /\ teamName d <> teamName doc
    /\ email d <> email doc /\ mobile d <> mobile doc
    /\ aadhar d <> aadhar doc.
Proof.
  intros v doc docs H d Hin. unfold duplicate_key in H.
  destruct (find _ (unique_indexes v)) as [ix|] eqn:E; [discriminate|].
  assert (Hix : forall ix, In ix (unique_indexes v) -> same_key ix doc d = false).
  { intros ix Hix. pose proof (find_none _ _ E ix Hix) as Hv.
    unfold violates in Hv.
    destruct (same_key ix doc d) eqn:Hk; [|reflexivity].
    assert (existsb (same_key ix doc) docs = true)
      by (apply existsb_exists; eauto).
    congruence. }
  assert (Hone : forall name (get : Registration -> string),
            In [(name, get)] (unique_indexes v) -> get d <> get doc).
  { intros name get Hin' Heq. apply Hix in Hin'. unfold same_key in Hin'.
    simpl in Hin'. rewrite Heq, String.eqb_refl in Hin'. discriminate. }
  unfold unique_indexes in Hone.
  repeat split; eapply Hone; apply in_or_app; left; simpl; eauto 10.
Qed.

(** C4.  A submission that collides with a stored record on any axis of
    the duplicate check is refused, with status 400 or 500, and the state
    after the request is the state before it: no record is written and no
    mail is sent. *)
Theorem conflict_is_rejected : forall v env req s,
  conflict v env req s ->
  exists res, register v env req s = (res, s) /\ rejection res.
Proof.
  intros v env req s (d & Hin & Hc).
  unfold request_digest in Hc.
  destruct (register_outcome v env req s)
    as [Hrej|(doc & _ & _ & Hpre & Hsave & _)]; [exact Hrej|].
  exfalso.
  apply precheck_inr in Hpre as (fa & fc & Hfa & Hfc & -> & Hfree).
  apply save_inr in Hsave as (_ & _ & Hkey).
  destruct (Hfree d Hin) as (Ha & Hcol & Hteam).
  eapply duplicate_key_None in Hkey as (K1 & K2 & K3 & K4 & K5); [|exact Hin].
  simpl in K1, K2, K3, K4, K5.
  rewrite Hfa, Hfc in Hc.
  destruct Hc as [(fa' & E & Hh)|[(fc' & E & Hh)|[Ht|[H|[H|[H|[H|H]]]]]]];
    try congruence; try contradiction.
Qed.

End Duplicates.

Section Documents.
Context {L : Lib}.

Lemma precheck_same_column : forall v env b req s fa fc,
  files_aadharImage req = Some fa ->
  files_collegeId req = Some fc ->
  (exists d, In d (db s)
     /\ (aadharImageHash d = upload_digest v env fa fc fa
         \/ collegeIdHash d = upload_digest v env fa fc fc)) ->
  exists out,
    precheck v env b req s = inl out
    /\ DuplicateDocument v
         match out with
         | inl err => catch_register v err
         | inr res => res
         end.
Proof.
  intros v env b req s fa fc Hfa Hfc (d & Hin & Hd).
  unfold precheck. rewrite Hfa, Hfc.
  destruct Hd as [Hd|Hd].
  - destruct (findOne_found
                (fun d => (aadharImageHash d =? upload_digest v env fa fc fa)%string)
                (db s) d Hin) as [d' ->].
    { rewrite Hd. apply String.eqb_refl. }
    destruct v; simpl.
    + eexists; split; [reflexivity|]. left; reflexivity.
    + eexists; split; [reflexivity|]. reflexivity.
  - destruct (findOne_found
                (fun d => (collegeIdHash d =? upload_digest v env fa fc fc)%string)
                (db s) d Hin) as [d' ->].
    { rewrite Hd. apply String.eqb_refl. }
    destruct (findOne _ (db s)); destruct v; simpl;
      eexists; (split; [reflexivity|]);
      first [reflexivity | left; reflexivity | right; reflexivity].
Qed.

Lemma rejection_not_200 : forall res, rejection res -> status res <> 200%Z.
Proof. intros res [H|H]; rewrite H; discriminate. Qed.

Lemma catch_register_rejection : forall v err, rejection (catch_register v err).
Proof.
  intros v err. unfold catch_register.
  destruct (is_11000 err); [left; reflexivity|].
  destruct v; [right|left]; reflexivity.
Qed.

(** What an answer 200 of the registration route tells. *)
Lemma accepted_inv : forall v env req s res s1,
  register v env req s = (res, s1) -> status res = 200%Z ->
  exists fa fc,
    let b := sanitized (body req) in
    let doc := new_Registration v env b fa fc in
    upload v req = None
    /\ validationResult v (body req) = []
    /\ files_aadharImage req = Some fa /\ files_collegeId req = Some fc
    /\ precheck v env b req s = inr doc
    /\ schema_valid v doc = true
    /\ duplicate_key v doc (db s) = None
    /\ sendMail env = Delivered
    /\ res = success v b doc
    /\ s1 = {| db := (db s ++ [doc])%list;
               outbox := (outbox s ++ [confirmation_mail v b])%list |}.
Proof.
  intros v env req s res s1 Hreg Hst.
  destruct (register_outcome v env req s)
    as [(res' & E & Hrej)|(doc & Hup & Hval & Hpre & Hsave & E)];
    rewrite E in Hreg.
  - inversion Hreg; subst. apply rejection_not_200 in Hrej. contradiction.
  - pose proof Hpre as Hpre'.
    apply precheck_inr in Hpre' as (fa & fc & Hfa & Hfc & -> & _).
    apply save_inr in Hsave as (_ & Hschema & Hkey).
    exists fa, fc. cbv zeta.
    destruct (sendMail env) as [|m].
    + inversion Hreg; subst. repeat split; auto.
    + inversion Hreg; subst.
      pose proof (catch_register_rejection v (mail_failure v m)) as Hrej.
      apply rejection_not_200 in Hrej. contradiction.
Qed.

Lemma Forall2_In_l : forall (R : Registration -> Registration -> Prop) l k x,
  Forall2 R l k -> In x l -> exists y, In y k /\ R x y.
Proof.
  intros R l k x F. induction F as [|a b l k Hab F IH]; simpl; [intros []|].
  intros [<-|Hin]; eauto.
  destruct (IH Hin) as (y & Hy & Hr). eauto.
Qed.

(** A stored record is still stored, up to [isConfirmed], after any
    sequence of requests. *)
Lemma run_keeps : forall v rs s d,
  In d (db s) -> exists d', In d' (db (run v rs s)) /\ evolves d d'.
Proof.
  intros v rs s d Hin.
  destruct (run_evolves v rs s) as (kept & added & E & F).
  destruct (Forall2_In_l _ _ _ _ F Hin) as (d' & Hd' & Hev).
  exists d'. rewrite E. split; [apply in_or_app; auto|exact Hev].
Qed.

(** C1 (amended).  A submission that passes the upload filter and the field
    validation and carries both files is refused with a [DuplicateDocument]
    answer, the state being left as it is, as soon as the digest of its
    Aadhar upload is the [aadharImageHash] of a stored record or the digest
    of its College ID upload is the [collegeIdHash] of a stored record. *)
Theorem same_column_digest_is_rejected : forall v env req s fa fc,
  upload v req = None ->
  validationResult v (body req) = [] ->
  files_aadharImage req = Some fa ->
  files_collegeId req = Some fc ->
  (exists d, In d (db s)
     /\ (aadharImageHash d = upload_digest v env fa fc fa
         \/ collegeIdHash d = upload_digest v env fa fc fc)) ->
  exists res, register v env req s = (res, s) /\ DuplicateDocument v res.
Proof.
  intros v env req s fa fc Hup Hval Hfa Hfc Hseen.
  destruct (precheck_same_column v env (sanitized (body req)) req s fa fc
              Hfa Hfc Hseen) as (out & Hpre & Hdup).
  unfold register, try_register. rewrite Hup, Hval, Hpre.
  destruct out; eexists; (split; [reflexivity|exact Hdup]).
Qed.

Lemma upload_digest_apart : forall v env fa fc own,
  stored_apart v env fa fc ->
  upload_digest v env fa fc own = calculateFileHash v (buffer own).
Proof.
  intros v env fa fc own H. destruct v; [|reflexivity].
  unfold upload_digest, read_back. now rewrite (H eq_refl).
Qed.

(** X21.  Uploads that are stored apart are hashed on their bytes only.  Hence,
    once a submission has been accepted, a later submission whose Aadhar
    upload has the same bytes, under whatever file name, and which passes
    the upload filter and the field validation with both files, is refused
    with a [DuplicateDocument] answer and changes nothing, whatever
    requests were served in between, provided that neither submission had
    its two uploads written to one path. *)
Theorem identical_aadhar_image_is_rejected :
  forall v env1 env2 req1 req2 s res1 s1 fa1 fc1 fa2 fc2 rs,
  register v env1 req1 s = (res1, s1) ->
  status res1 = 200%Z ->
  files_aadharImage req1 = Some fa1 ->
  files_collegeId req1 = Some fc1 ->
  files_aadharImage req2 = Some fa2 ->
  files_collegeId req2 = Some fc2 ->
  buffer fa1 = buffer fa2 ->
  stored_apart v env1 fa1 fc1 ->
  stored_apart v env2 fa2 fc2 ->
  upload v req2 = None ->
  validationResult v (body req2) = [] ->
  upload_digest v env1 fa1 fc1 fa1 = upload_digest v env2 fa2 fc2 fa2
  /\ exists res2,
       register v env2 req2 (run v rs s1) = (res2, run v rs s1)
       /\ DuplicateDocument v res2.
Proof.
  intros v env1 env2 req1 req2 s res1 s1 fa1 fc1 fa2 fc2 rs
         Hreg Hst Hfa1 Hfc1 Hfa2 Hfc2 Hbuf Hapart1 Hapart2 Hup Hval.
  assert (Hhash : upload_digest v env1 fa1 fc1 fa1
                  = upload_digest v env2 fa2 fc2 fa2).
  { rewrite !upload_digest_apart by assumption. now rewrite Hbuf. }
  split; [exact Hhash|].
  apply accepted_inv in Hreg as (fa & fc & Hacc); [|exact Hst].
  cbv zeta in Hacc.
  destruct Hacc as (_ & _ & Hfa & Hfc & _ & _ & _ & _ & _ & ->).
  rewrite Hfa1 in Hfa. inversion Hfa; subst fa.
  rewrite Hfc1 in Hfc. inversion Hfc; subst fc.
  set (doc := new_Registration v env1 (sanitized (body req1)) fa1 fc1) in *.
  destruct (run_keeps v rs
              {| db := (db s ++ [doc])%list;
                 outbox := (outbox s
                            ++ [confirmation_mail v (sanitized (body req1))])%list |}
              doc) as (d' & Hin & [Hsame _]).
  { simpl. apply in_or_app. right. left. reflexivity. }
  destruct (precheck_same_column v env2 (sanitized (body req2)) req2
              (run v rs
                 {| db := (db s ++ [doc])%list;
                    outbox := (outbox s
                               ++ [confirmation_mail v (sanitized (body req1))])%list |})
              fa2 fc2 Hfa2 Hfc2) as (out & Hpre & Hdup).
  { exists d'. split; [exact Hin|]. left.
    unfold same_except_isConfirmed in Hsame.
    repeat match goal with H : _ /\ _ |- _ => destruct H end.
    rewrite <- Hhash. subst doc. simpl in *. congruence. }
  unfold register, try_register. rewrite Hup, Hval, Hpre.
  destruct out; eexists; (split; [reflexivity|exact Hdup]).
Qed.

End Documents.

Section Uniqueness.
Context {L : Lib}.

Lemma findOne_None_intro : forall f docs,
  (forall d, In d docs -> f d = false) -> findOne f docs = None.
Proof.
  intros f docs H. unfold findOne.
  destruct (find f docs) as [d|] eqn:E; [|reflexivity].
  apply find_some in E as [Hin Hf]. rewrite (H d Hin) in Hf. discriminate.
Qed.

Lemma violates_false : forall name (get : Registration -> string) doc docs,
  (forall d, In d docs -> get d <> get doc) ->
  violates [(name, get)] doc docs = false.
Proof.
  intros name get doc docs H. unfold violates.
  destruct (existsb _ docs) eqn:E; [|reflexivity].
  apply existsb_exists in E as (d & Hin & Hk).
  unfold same_key in Hk. simpl in Hk. rewrite andb_true_r in Hk.
  apply String.eqb_eq in Hk. exfalso. apply (H d Hin). auto.
Qed.

Lemma violates_true : forall name (get : Registration -> string) doc docs d,
  In d docs -> get d = get doc ->
  violates [(name, get)] doc docs = true.
Proof.
  intros name get doc docs d Hin Heq. unfold violates.
  apply existsb_exists. exists d. split; [exact Hin|].
  unfold same_key. simpl. rewrite Heq, String.eqb_refl. reflexivity.
Qed.

Lemma duplicate_key_teamName : forall v doc docs d,
  (forall d', In d' docs -> registrationId d' <> registrationId doc) ->
  In d docs -> teamName d = teamName doc ->
  duplicate_key v doc docs = Some ["teamName"].
Proof.
  intros v doc docs d Hid Hin Ht. unfold duplicate_key, unique_indexes.
  cbn [app find].
  rewrite (violates_false _ _ _ _ Hid).
  rewrite (violates_true _ _ _ _ _ Hin Ht). reflexivity.
Qed.

Lemma duplicate_key_email : forall v doc docs d,
  (forall d', In d' docs -> registrationId d' <> registrationId doc) ->
  (forall d', In d' docs -> teamName d' <> teamName doc) ->
  In d docs -> email d = email doc ->
  duplicate_key v doc docs = Some ["email"].
Proof.
  intros v doc docs d Hid Hteam Hin He. unfold duplicate_key, unique_indexes.
  cbn [app find].
  rewrite (violates_false _ _ _ _ Hid), (violates_false _ _ _ _ Hteam).
  rewrite (violates_true _ _ _ _ _ Hin He). reflexivity.
Qed.

Lemma NoDup_snoc : forall (l : list string) x,
  NoDup l -> ~ In x l -> NoDup (l ++ [x]).
Proof.
  intros l x Hl Hx. induction l as [|a l IH]; simpl.
  - constructor; [intros []|constructor].
  - inversion Hl; subst. constructor.
    + intros Hin. apply in_app_or in Hin as [Hin|[->|[]]]; auto.
      apply Hx. left. reflexivity.
    + apply IH; auto. intros Hin. apply Hx. right. exact Hin.
Qed.

Lemma NoDup_map_snoc : forall (get : Registration -> string) docs doc,
  NoDup (map get docs) ->
  (forall d, In d docs -> get d <> get doc) ->
  NoDup (map get (docs ++ [doc])).
Proof.
  intros get docs doc Hn Hfresh. rewrite map_app. simpl.
  apply NoDup_snoc; [exact Hn|].
  intros Hin. apply in_map_iff in Hin as (d & Heq & Hd).
  exact (Hfresh d Hd Heq).
Qed.

Lemma map_updateAt_confirmed : forall (get : Registration -> string),
  (forall d, get (confirmed d) = get d) ->
  forall docs i, map get (updateAt i confirmed docs) = map get docs.
Proof.
  intros get Hg. induction docs as [|x docs IH]; intros i; simpl; auto.
  destruct i as [|i]; simpl; [now rewrite Hg|now rewrite IH].
Qed.

Lemma handle_unique : forall v r s,
  unique_fields (db s) -> unique_fields (db (snd (handle v r s))).
Proof.
  intros v [env req|id|] s Hu; simpl.
  - destruct (register_outcome v env req s)
      as [(res & -> & _)|(doc & _ & _ & _ & Hsave & ->)]; [exact Hu|].
    apply save_inr in Hsave as (_ & _ & Hkey).
    pose proof (duplicate_key_None _ _ _ Hkey) as Hfresh.
    destruct Hu as (U1 & U2 & U3 & U4 & U5).
    destruct (sendMail env); simpl;
      (repeat split; apply NoDup_map_snoc; auto; intros d Hd;
       apply (Hfresh d Hd)).
  - destruct (confirm_db id s) as [->|[i ->]]; [exact Hu|].
    destruct Hu as (U1 & U2 & U3 & U4 & U5).
    unfold unique_fields.
    rewrite !map_updateAt_confirmed by reflexivity. auto.
  - rewrite export_excel_state. exact Hu.
Qed.

Lemma run_unique : forall v rs s,
  unique_fields (db s) -> unique_fields (db (run v rs s)).
Proof.
  intros v rs. induction rs as [|r rs IH]; intros s Hu; simpl; auto.
  apply IH, handle_unique, Hu.
Qed.

(** C5.  In every state that the server reaches from the empty collection
    the five unique fields, [teamName] among them, are pairwise distinct
    over the stored records.  A submission whose team name, trimmed, is
    that of a stored record is refused and changes nothing, whatever its
    event; when it gets as far as the insert (valid, documents unseen, no
    record of the same event and team name, registration id unseen), what
    refuses it is the unique index on [teamName]. *)
Theorem teamName_is_globally_unique :
  (forall v rs, unique_fields (db (run v rs initial)))
  /\ (forall v env req s d,
        In d (db s) ->
        teamName d = trim (Body.teamName (body req)) ->
        exists res, register v env req s = (res, s) /\ rejection res)
  /\ (forall v env req s d doc,
        In d (db s) ->
        teamName d = trim (Body.teamName (body req)) ->
        upload v req = None ->
        validationResult v (body req) = [] ->
        precheck v env (sanitized (body req)) req s = inr doc ->
        schema_valid v doc = true ->
        (forall d', In d' (db s) ->
           registrationId d' <> Body.registrationId (body req)) ->
        event d <> Body.event (body req)
        /\ register v env req s = (DuplicateField v "teamName", s)).
Proof.
  split; [|split].
  - intros v rs. apply run_unique. unfold unique_fields. simpl.
    repeat split; constructor.
  - intros v env req s d Hin Ht.
    destruct (register_outcome v env req s)
      as [Hrej|(doc & _ & _ & Hpre & Hsave & _)]; [exact Hrej|].
    exfalso.
    apply precheck_inr in Hpre as (fa & fc & _ & _ & -> & _).
    apply save_inr in Hsave as (_ & _ & Hkey).
    eapply duplicate_key_None in Hkey as (_ & K & _); [|exact Hin].
    apply K. exact Ht.
  - intros v env req s d doc Hin Ht Hup Hval Hpre Hschema Hid.
    pose proof Hpre as Hpre'.
    apply precheck_inr in Hpre' as (fa & fc & _ & _ & -> & Hfree).
    split.
    + intros He. destruct (Hfree d Hin) as (_ & _ & Hn). apply Hn.
      split; [exact He|exact Ht].
    + unfold register, try_register. rewrite Hup, Hval, Hpre.
      unfold save. rewrite Hschema.
      rewrite (duplicate_key_teamName v
                 (new_Registration v env (sanitized (body req)) fa fc)
                 (db s) d Hid Hin Ht).
      destruct v; reflexivity.
Qed.

End Uniqueness.

Section Notification.
Context {L : Lib}.

(** C6.  When the insert of the record succeeds and the mail transport
    then fails, the record stays in the collection, no mail is recorded,
    and the answer is an error, not a 200: status 500 with "Failed to send
    confirmation email" on the disk-backed server, status 400 with the
    message of the transport on the in-memory server. *)
Theorem mail_failure_keeps_the_record : forall v env req s doc docs m,
  upload v req = None ->
  validationResult v (body req) = [] ->
  precheck v env (sanitized (body req)) req s = inr doc ->
  save v doc (db s) = inr docs ->
  sendMail env = TransportError m ->
  exists res,
    register v env req s = (res, {| db := docs; outbox := outbox s |})
    /\ docs = (db s ++ [doc])%list
    /\ In doc docs
    /\ status res <> 200%Z
    /\ res = match v with
             | DiskBacked =>
                 {| status := 500;
                    payload := JError "Failed to send confirmation email" |}
             | InMemory =>
                 {| status := 400;
                    payload :=
                      JError (or_default m
                                "An unexpected error occurred during registration") |}
             end.
Proof.
  intros v env req s doc docs m Hup Hval Hpre Hsave Hmail.
  pose proof Hsave as Hs. apply save_inr in Hs as (-> & _ & _).
  eexists. split; [|split; [reflexivity|split; [|split]]].
  - unfold register, try_register, sendConfirmationEmail.
    rewrite Hup, Hval, Hpre, Hsave, Hmail. reflexivity.
  - apply in_or_app. right. left. reflexivity.
  - destruct v; simpl; discriminate.
  - destruct v; reflexivity.
Qed.

Lemma precheck_fresh : forall v env b req s fa fc,
  files_aadharImage req = Some fa -> files_collegeId req = Some fc ->
  (forall d, In d (db s) ->
     aadharImageHash d <> upload_digest v env fa fc fa
     /\ collegeIdHash d <> upload_digest v env fa fc fc
     /\ ~ (event d = Body.event b /\ teamName d = Body.teamName b)) ->
  precheck v env b req s = inr (new_Registration v env b fa fc).
Proof.
  intros v env b req s fa fc Hfa Hfc Hfree. unfold precheck.
  rewrite Hfa, Hfc.
  rewrite (findOne_None_intro
             (fun d => (aadharImageHash d =? upload_digest v env fa fc fa)%string)).
  2:{ intros d Hd. apply String.eqb_neq. apply (Hfree d Hd). }
  rewrite (findOne_None_intro
             (fun d => (collegeIdHash d =? upload_digest v env fa fc fc)%string)).
  2:{ intros d Hd. apply String.eqb_neq. apply (Hfree d Hd). }
  replace (duplicate_document v None None) with (@None (JsError + response))
    by (destruct v; reflexivity).
  rewrite findOne_None_intro; [reflexivity|].
  intros d Hd. destruct (Hfree d Hd) as (_ & _ & Hn).
  destruct (String.eqb_spec (event d) (Body.event b)) as [E1|E1];
    [|reflexivity].
  destruct (String.eqb_spec (teamName d) (Body.teamName b)) as [E2|E2];
    [|reflexivity].
  exfalso. apply Hn. auto.
Qed.

(** C10.  The route stores, and the unique index compares, the email as
    [normalizeEmail] returns it.  Take two submissions, each of which the
    state would accept, with different registration ids, team names and
    documents, whose emails have the same normal form: once the first is
    accepted, the second is refused with "email already exists" and
    changes nothing, although the two emails may differ as they were
    typed. *)
Theorem equal_normalized_email_is_rejected :
  forall v env1 env2 req1 req2 s res1 s1 fa1 fc1 fa2 fc2,
  register v env1 req1 s = (res1, s1) ->
  status res1 = 200%Z ->
  status (fst (register v env2 req2 s)) = 200%Z ->
  normalizeEmail (Body.email (body req1))
    = normalizeEmail (Body.email (body req2)) ->
  Body.registrationId (body req1) <> Body.registrationId (body req2) ->
  trim (Body.teamName (body req1)) <> trim (Body.teamName (body req2)) ->
  files_aadharImage req1 = Some fa1 -> files_collegeId req1 = Some fc1 ->
  files_aadharImage req2 = Some fa2 -> files_collegeId req2 = Some fc2 ->
  upload_digest v env1 fa1 fc1 fa1 <> upload_digest v env2 fa2 fc2 fa2 ->
  upload_digest v env1 fa1 fc1 fc1 <> upload_digest v env2 fa2 fc2 fc2 ->
  (exists d, In d (db s1)
             /\ email d = normalizeEmail (Body.email (body req1)))
  /\ register v env2 req2 s1 = (DuplicateField v "email", s1).
Proof.
  intros v env1 env2 req1 req2 s res1 s1 fa1 fc1 fa2 fc2
         Hreg1 Hst1 Hst2 Hmail Hid Hteam Hfa1 Hfc1 Hfa2 Hfc2 Hha Hhc.
  apply accepted_inv in Hreg1 as (fa & fc & Hacc1); [|exact Hst1].
  cbv zeta in Hacc1.
  destruct Hacc1 as (_ & _ & Ea & Ec & _ & _ & _ & _ & _ & ->).
  rewrite Hfa1 in Ea. rewrite Hfc1 in Ec. inversion Ea; inversion Ec; subst fa fc.
  clear Ea Ec.
  set (doc1 := new_Registration v env1 (sanitized (body req1)) fa1 fc1) in *.
  destruct (register v env2 req2 s) as [res2 s2] eqn:Hreg2. simpl in Hst2.
  apply accepted_inv in Hreg2 as (fa & fc & Hacc2); [|exact Hst2].
  cbv zeta in Hacc2.
  destruct Hacc2 as (Hup & Hval & Ea & Ec & Hpre & Hschema & Hkey & _).
  rewrite Hfa2 in Ea. rewrite Hfc2 in Ec. inversion Ea; inversion Ec; subst fa fc.
  clear Ea Ec.
  set (doc2 := new_Registration v env2 (sanitized (body req2)) fa2 fc2) in *.
  apply precheck_inr in Hpre as (fa & fc & Ea' & Ec' & _ & Hfree).
  rewrite Hfa2 in Ea'. rewrite Hfc2 in Ec'.
  inversion Ea'; inversion Ec'; subst fa fc.
  assert (Hin1 : In doc1 (db s ++ [doc1])%list)
    by (apply in_or_app; right; left; reflexivity).
  split.
  { exists doc1. split; [exact Hin1|reflexivity]. }
  unfold register, try_register. rewrite Hup, Hval.
  rewrite (precheck_fresh v env2 (sanitized (body req2)) req2 _ fa2 fc2 Hfa2 Hfc2).
  2:{ simpl. intros d Hd. apply in_app_or in Hd as [Hd|[<-|[]]].
      - apply Hfree, Hd.
      - subst doc1. simpl. repeat split; auto.
        intros [_ Ht]. apply Hteam. exact Ht. }
  fold doc2. unfold save. rewrite Hschema. cbn [db].
  rewrite (duplicate_key_email v doc2 (db s ++ [doc1])%list doc1).
  - destruct v; reflexivity.
  - intros d Hd. apply in_app_or in Hd as [Hd|[<-|[]]].
    + eapply duplicate_key_None in Hkey as (K & _); [exact K|exact Hd].
    + exact Hid.
  - intros d Hd. apply in_app_or in Hd as [Hd|[<-|[]]].
    + eapply duplicate_key_None in Hkey as (_ & K & _); [exact K|exact Hd].
    + exact Hteam.
  - exact Hin1.
  - exact Hmail.
Qed.

End Notification.

Section Validation.
Context {L : Lib}.

Lemma In_check : forall e ok p m,
  In e (check ok p m) <-> ok = false /\ e = {| param := p; msg := m |}.
Proof.
  intros e ok p m. unfold check. destruct ok; simpl.
  - split; [intros []|intros [H _]; discriminate].
  - split; [intros [<-|[]]; auto|intros [_ ->]; auto].
Qed.

Lemma mobile_rule_spec : forall v s, mobile_rule v s = mobile_accepted_by v s.
Proof.
  intros [] s; simpl.
  - apply en_IN_spec.
  - apply mobile_pattern_spec.
Qed.

Lemma mobile_error_iff : forall v b,
  In {| param := "mobile"; msg := mobile_message v |} (validationResult v b)
  <-> mobile_rule v (Body.mobile b) = false.
Proof.
  intros v b. unfold validationResult. split.
  - intros H.
    repeat (apply in_app_or in H; destruct H as [H|H]);
      apply In_check in H as [Hok He]; try discriminate He; exact Hok.
  - intros H. apply in_or_app. right. apply in_or_app. left.
    apply In_check. auto.
Qed.

Lemma aadhar_error_iff : forall v b,
  In {| param := "aadhar"; msg := "Aadhar must be 12 digits" |}
     (validationResult v b)
  <-> String.length (Body.aadhar b) <> 12%nat.
Proof.
  intros v b.
  assert (Hlen : isLength 12 12 (Body.aadhar b) = false
                 <-> String.length (Body.aadhar b) <> 12%nat).
  { unfold isLength. rewrite andb_false_iff, !Nat.leb_gt. lia. }
  rewrite <- Hlen. unfold validationResult. split.
  - intros H.
    repeat (apply in_app_or in H; destruct H as [H|H]);
      apply In_check in H as [Hok He]; try discriminate He; exact Hok.
  - intros H. do 4 (apply in_or_app; right). apply in_or_app. left.
    apply In_check. auto.
Qed.

Lemma invalid_is_rejected : forall v env req s e,
  upload v req = None ->
  In e (validationResult v (body req)) ->
  register v env req s
  = ({| status := 400; payload := JErrors (validationResult v (body req)) |}, s).
Proof.
  intros v env req s e Hup Hin. unfold register. rewrite Hup.
  destruct (validationResult v (body req)); [destruct Hin|reflexivity].
Qed.

(** C8 (amended).  The mobile chain refuses exactly the values that are
    not ten digits starting with 6-9 on the in-memory server, and exactly
    the values that are not such a number, bare or behind [91], [+91] or
    [0], on the disk-backed server; a refused value makes the route answer
    400 with the list of validation errors and leave the state as it
    is. *)
Theorem mobile_rule_by_server : forall v env req s,
  upload v req = None ->
  (In {| param := "mobile"; msg := mobile_message v |}
      (validationResult v (body req))
   <-> mobile_accepted_by v (Body.mobile (body req)) = false)
  /\ (mobile_accepted_by v (Body.mobile (body req)) = false ->
      exists errs,
        register v env req s = ({| status := 400; payload := JErrors errs |}, s)
        /\ In {| param := "mobile"; msg := mobile_message v |} errs).
Proof.
  intros v env req s Hup.
  assert (Hiff : In {| param := "mobile"; msg := mobile_message v |}
                    (validationResult v (body req))
                 <-> mobile_accepted_by v (Body.mobile (body req)) = false).
  { rewrite <- mobile_rule_spec. apply mobile_error_iff. }
  split; [exact Hiff|].
  intros Hno. apply Hiff in Hno.
  exists (validationResult v (body req)). split; [|exact Hno].
  eapply invalid_is_rejected; eauto.
Qed.

End Validation.

(** ** The servers on concrete requests *)

Lemma after_alpha_db : forall v, db (after_alpha v) = [alpha_record v].
Proof. intros []; vm_compute; reflexivity. Qed.

(** C7 (the code at the failing input).  An Aadhar number of twelve
    letters is not twelve digits, and yet it passes the validation of both
    servers: the submission [gamma] is accepted and its Aadhar number is
    stored as it came. *)
Theorem aadhar_of_letters_is_accepted :
  twelve_digits (Body.aadhar (body gamma)) = false
  /\ validationResult DiskBacked (body gamma) = []
  /\ validationResult InMemory (body gamma) = []
  /\ status (fst (register DiskBacked (sample_env 5) gamma initial)) = 200%Z
  /\ status (fst (register InMemory (sample_env 5) gamma initial)) = 200%Z
  /\ map aadhar (db (snd (register DiskBacked (sample_env 5) gamma initial)))
     = ["ABCDEFGHIJKL"]
  /\ map aadhar (db (snd (register InMemory (sample_env 5) gamma initial)))
     = ["ABCDEFGHIJKL"].
Proof. repeat split; vm_compute; reflexivity. Qed.

(** C2 (the code at the failing input).  The two uploads of [theta] bear
    one file name and are stored in the same millisecond: the disk-backed
    server writes them to one path and stores the digest of that one file
    for both.  The Aadhar upload of [iota] has the bytes of the Aadhar
    upload of [theta], and the disk-backed server does not refuse [iota]:
    it accepts and stores it.  The in-memory server, which hashes the
    bytes that were sent, refuses [iota] as a duplicate document. *)
Theorem same_named_uploads_get_one_digest :
  option_map buffer (files_aadharImage theta)
  = option_map buffer (files_aadharImage iota)
  /\ option_map originalname (files_aadharImage theta)
     <> option_map originalname (files_aadharImage iota)
  /\ option_map (stored_path 1710) (files_aadharImage theta)
     = option_map (stored_path 1710) (files_collegeId theta)
  /\ status (fst (register DiskBacked (one_path_env 1710) theta initial)) = 200%Z
  /\ map aadharImageHash (db (after_theta DiskBacked))
     = [calculateFileHash DiskBacked (bytes_of "COLLEGE-9")]
  /\ map collegeIdHash (db (after_theta DiskBacked))
     = [calculateFileHash DiskBacked (bytes_of "COLLEGE-9")]
  /\ calculateFileHash DiskBacked (bytes_of "AADHAR-9")
     <> calculateFileHash DiskBacked (bytes_of "COLLEGE-9")
  /\ status (fst (register DiskBacked (sample_env 1711) iota
                    (after_theta DiskBacked))) = 200%Z
  /\ map registrationId
       (db (snd (register DiskBacked (sample_env 1711) iota
                   (after_theta DiskBacked)))) = ["r-9"; "r-10"]
  /\ status (fst (register InMemory (one_path_env 1710) theta initial)) = 200%Z
  /\ register InMemory (sample_env 1711) iota (after_theta InMemory)
     = (bad_request
          "This Aadhar card or College ID image has already been uploaded",
        after_theta InMemory)
  /\ DuplicateDocument InMemory
       (fst (register InMemory (sample_env 1711) iota (after_theta InMemory))).
Proof.
  repeat split; try (vm_compute; reflexivity);
    vm_compute; discriminate.
Qed.

(** C1 (counterexample).  On both servers, after [alpha] is registered,
    the Aadhar upload of [beta] has the digest stored as the
    [collegeIdHash] of [alpha], and [beta] is not refused as a duplicate
    document: it is accepted and stored. *)
Lemma cross_column_digest_is_accepted :
  (digest_seen DiskBacked (sample_env 1701) beta (after_alpha DiskBacked)
   /\ ~ (exists res,
           register DiskBacked (sample_env 1701) beta (after_alpha DiskBacked)
           = (res, after_alpha DiskBacked)
           /\ DuplicateDocument DiskBacked res)
   /\ status (fst (register DiskBacked (sample_env 1701) beta
                     (after_alpha DiskBacked))) = 200%Z
   /\ map registrationId
        (db (snd (register DiskBacked (sample_env 1701) beta
                    (after_alpha DiskBacked)))) = ["r-1"; "r-2"])
  /\ (digest_seen InMemory (sample_env 1701) beta (after_alpha InMemory)
      /\ ~ (exists res,
              register InMemory (sample_env 1701) beta (after_alpha InMemory)
              = (res, after_alpha InMemory)
              /\ DuplicateDocument InMemory res)
      /\ status (fst (register InMemory (sample_env 1701) beta
                        (after_alpha InMemory))) = 200%Z
      /\ map registrationId
           (db (snd (register InMemory (sample_env 1701) beta
                       (after_alpha InMemory)))) = ["r-1"; "r-2"]).
Proof.
  split; (split; [|split; [|split]]).
  - exists (alpha_record DiskBacked), (pdf "scan.pdf" "COLLEGE-1").
    split; [rewrite after_alpha_db; left; reflexivity|].
    split; [left; reflexivity|right; vm_compute; reflexivity].
  - intros (res & H & _). apply (f_equal (fun p => List.length (db (snd p)))) in H.
    vm_compute in H. discriminate H.
  - vm_compute; reflexivity.
  - vm_compute; reflexivity.
  - exists (alpha_record InMemory), (pdf "scan.pdf" "COLLEGE-1").
    split; [rewrite after_alpha_db; left; reflexivity|].
    split; [left; reflexivity|right; vm_compute; reflexivity].
  - intros (res & H & _). apply (f_equal (fun p => List.length (db (snd p)))) in H.
    vm_compute in H. discriminate H.
  - vm_compute; reflexivity.
  - vm_compute; reflexivity.
Qed.

(** C8 (counterexample).  The mobile number of [delta] carries the prefix
    [+91] and does not match [^[6-9][0-9]{9}$]; the disk-backed server
    raises no validation error and accepts the submission. *)
Lemma prefixed_mobile_is_accepted :
  matches mobile_pattern (Body.mobile (body delta)) = false
  /\ validationResult DiskBacked (body delta) = []
  /\ status (fst (register DiskBacked (sample_env 7) delta initial)) = 200%Z
  /\ map mobile (db (snd (register DiskBacked (sample_env 7) delta initial)))
     = ["+919876543210"].
Proof. repeat split; vm_compute; reflexivity. Qed.

(** ** Instances of the theorems *)

Lemma same_column_digest_is_rejected_witness :
  exists res,
    register DiskBacked (sample_env 1702) epsilon (after_alpha DiskBacked)
    = (res, after_alpha DiskBacked)
    /\ DuplicateDocument DiskBacked res.
Proof.
  apply (same_column_digest_is_rejected DiskBacked (sample_env 1702) epsilon
           (after_alpha DiskBacked)
           (pdf "renamed.pdf" "AADHAR-1") (pdf "c.pdf" "COLLEGE-6")).
  - vm_compute; reflexivity.
  - vm_compute; reflexivity.
  - reflexivity.
  - reflexivity.
  - exists (alpha_record DiskBacked).
    split; [rewrite after_alpha_db; left; reflexivity|].
    left. vm_compute. reflexivity.
Defined.

Lemma identical_aadhar_image_is_rejected_witness :
  buffer (pdf "aadhar.pdf" "AADHAR-1") = buffer (pdf "renamed.pdf" "AADHAR-1")
  /\ exists res2,
       register DiskBacked (sample_env 1702) epsilon
         (run DiskBacked [GET_confirm "r-1"; GET_export_excel]
            (after_alpha DiskBacked))
       = (res2, run DiskBacked [GET_confirm "r-1"; GET_export_excel]
                  (after_alpha DiskBacked))
       /\ DuplicateDocument DiskBacked res2.
Proof.
  split; [reflexivity|].
  apply (identical_aadhar_image_is_rejected DiskBacked (sample_env 1700)
           (sample_env 1702) alpha epsilon initial
           (fst (register DiskBacked (sample_env 1700) alpha initial))
           (after_alpha DiskBacked)
           (pdf "aadhar.pdf" "AADHAR-1") (pdf "college.pdf" "COLLEGE-1")
           (pdf "renamed.pdf" "AADHAR-1") (pdf "c.pdf" "COLLEGE-6")
           [GET_confirm "r-1"; GET_export_excel]).
  - vm_compute; reflexivity.
  - vm_compute; reflexivity.
  - reflexivity.
  - reflexivity.
  - reflexivity.
  - reflexivity.
  - reflexivity.
  - intros _. vm_compute. reflexivity.
  - intros _. vm_compute. reflexivity.
  - vm_compute; reflexivity.
  - vm_compute; reflexivity.
Defined.

Lemma confirm_tri_state_witness :
  confirm "r-0" (after_alpha DiskBacked) = (not_found, after_alpha DiskBacked).
Proof.
  exact (proj2 (confirm_tri_state "r-0" (after_alpha DiskBacked))).
Defined.

Lemma conflict_is_rejected_witness :
  conflict DiskBacked (sample_env 1703) zeta (after_alpha DiskBacked)
  /\ exists res,
       register DiskBacked (sample_env 1703) zeta (after_alpha DiskBacked)
       = (res, after_alpha DiskBacked)
       /\ rejection res.
Proof.
  assert (H : conflict DiskBacked (sample_env 1703) zeta
                (after_alpha DiskBacked)).
  { exists (alpha_record DiskBacked).
    split; [rewrite after_alpha_db; left; reflexivity|].
    do 4 right. left. vm_compute. reflexivity. }
  split; [exact H|].
  apply (conflict_is_rejected DiskBacked (sample_env 1703) zeta
           (after_alpha DiskBacked) H).
Defined.

Lemma teamName_is_globally_unique_witness :
  exists d,
    In d (db (after_alpha DiskBacked))
    /\ teamName d = trim (Body.teamName (body zeta))
    /\ event d <> Body.event (body zeta)
    /\ register DiskBacked (sample_env 1703) zeta (after_alpha DiskBacked)
       = (DuplicateField DiskBacked "teamName", after_alpha DiskBacked).
Proof.
  exists (alpha_record DiskBacked).
  split; [rewrite after_alpha_db; left; reflexivity|].
  split; [vm_compute; reflexivity|].
  apply (proj2 (proj2 teamName_is_globally_unique)
           DiskBacked (sample_env 1703) zeta (after_alpha DiskBacked)
           (alpha_record DiskBacked)
           (new_Registration DiskBacked (sample_env 1703)
              (sanitized (body zeta))
              (pdf "a.pdf" "AADHAR-7") (pdf "c.pdf" "COLLEGE-7"))).
  - rewrite after_alpha_db. left; reflexivity.
  - vm_compute; reflexivity.
  - vm_compute; reflexivity.
  - vm_compute; reflexivity.
  - vm_compute; reflexivity.
  - vm_compute; reflexivity.
  - intros d' Hd. rewrite after_alpha_db in Hd. destruct Hd as [<-|[]].
    vm_compute. discriminate.
Defined.

Lemma mail_failure_keeps_the_record_witness :
  exists res,
    register DiskBacked (failing_env 1700) alpha initial
    = (res, {| db := db (after_alpha DiskBacked); outbox := [] |})
    /\ db (after_alpha DiskBacked)
       = ([] ++ [new_Registration DiskBacked (failing_env 1700)
                   (sanitized (body alpha))
                   (pdf "aadhar.pdf" "AADHAR-1") (pdf "college.pdf" "COLLEGE-1")])%list
    /\ In (new_Registration DiskBacked (failing_env 1700)
             (sanitized (body alpha))
             (pdf "aadhar.pdf" "AADHAR-1") (pdf "college.pdf" "COLLEGE-1"))
          (db (after_alpha DiskBacked))
    /\ status res <> 200%Z
    /\ res = {| status := 500;
                payload := JError "Failed to send confirmation email" |}.
Proof.
  apply (mail_failure_keeps_the_record DiskBacked (failing_env 1700) alpha
           initial _ (db (after_alpha DiskBacked)) "connect ECONNREFUSED").
  - vm_compute; reflexivity.
  - vm_compute; reflexivity.
  - vm_compute; reflexivity.
  - vm_compute; reflexivity.
  - reflexivity.
Defined.

Lemma equal_normalized_email_is_rejected_witness :
  Body.email (body alpha) <> Body.email (body alpha_again)
  /\ (exists d, In d (db (after_alpha InMemory))
                /\ email d = normalizeEmail (Body.email (body alpha)))
  /\ register InMemory (sample_env 1704) alpha_again (after_alpha InMemory)
     = (DuplicateField InMemory "email", after_alpha InMemory).
Proof.
  split; [discriminate|].
  apply (equal_normalized_email_is_rejected InMemory (sample_env 1700)
           (sample_env 1704) alpha alpha_again initial
           (fst (register InMemory (sample_env 1700) alpha initial))
           (after_alpha InMemory)
           (pdf "aadhar.pdf" "AADHAR-1") (pdf "college.pdf" "COLLEGE-1")
           (pdf "a.pdf" "AADHAR-5") (pdf "c.pdf" "COLLEGE-5")).
  - vm_compute; reflexivity.
  - vm_compute; reflexivity.
  - vm_compute; reflexivity.
  - vm_compute; reflexivity.
  - vm_compute; discriminate.
  - vm_compute; discriminate.
  - reflexivity.
  - reflexivity.
  - reflexivity.
  - reflexivity.
  - vm_compute; discriminate.
  - vm_compute; discriminate.
Defined.

Lemma mobile_rule_by_server_witness :
  mobile_accepted_by InMemory (Body.mobile (body delta)) = false
  /\ exists errs,
       register InMemory (sample_env 7) delta initial
       = ({| status := 400; payload := JErrors errs |}, initial)
       /\ In {| param := "mobile"; msg := mobile_message InMemory |} errs.
Proof.
  split; [reflexivity|].
  refine (proj2 (mobile_rule_by_server InMemory (sample_env 7) delta initial
                   _) _).
  - vm_compute; reflexivity.
  - reflexivity.
Defined.

Lemma records_change_only_isConfirmed_witness :
  Forall2 same_except_isConfirmed (db (after_alpha DiskBacked))
    (db (snd (confirm "r-1" (after_alpha DiskBacked)))).
Proof.
  exact (proj1 (proj2 records_change_only_isConfirmed)
           "r-1" (after_alpha DiskBacked)).
Defined.

(** * Further properties of the routes *)

Section Acceptance.
Context {L : Lib}.

Lemma check_nil : forall ok p m, check ok p m = [] -> ok = true.
Proof. intros [] p m H; [reflexivity|discriminate H]. Qed.

(** Without validation errors, each of the thirteen rules holds. *)
Lemma validation_passes : forall v b,
  validationResult v b = [] ->
  isEmail (Body.email b) = true
  /\ mobile_rule v (Body.mobile b) = true
  /\ notEmpty (trim (Body.teamName b)) = true
  /\ notEmpty (trim (Body.teamLeaderName b)) = true
  /\ isLength 12 12 (Body.aadhar b) = true
  /\ isInt 1 4 (Body.teamSize b) = true
  /\ notEmpty (Body.registrationId b) = true
  /\ notEmpty (Body.event b) = true
  /\ notEmpty (Body.gender b) = true
  /\ notEmpty (Body.college b) = true
  /\ notEmpty (Body.course b) = true
  /\ notEmpty (Body.year b) = true
  /\ notEmpty (Body.rollno b) = true.
Proof.
  intros v b H. unfold validationResult in H.
  repeat match type of H with
         | (_ ++ _)%list = [] =>
             apply app_eq_nil in H;
             let H1 := fresh "H" in destruct H as [H1 H];
             apply check_nil in H1
         end.
  apply check_nil in H. repeat split; assumption.
Qed.

Lemma mobile_rule_required : forall v s,
  mobile_rule v s = true -> required s = true.
Proof.
  intros v [|c s] H; [|reflexivity].
  destruct v; vm_compute in H; discriminate H.
Qed.

Lemma isLength_12_required : forall s,
  isLength 12 12 s = true -> required s = true.
Proof. intros [|c s] H; [discriminate H|reflexivity]. Qed.

Lemma isInt_bounds : forall lo hi s,
  isInt lo hi s = true -> (lo <= Number s <= hi)%Z.
Proof.
  intros lo hi s H. unfold isInt in H.
  apply andb_true_iff in H as [H H2]. apply andb_true_iff in H as [_ H1].
  apply Z.leb_le in H1. apply Z.leb_le in H2. lia.
Qed.

Lemma violates_composite_false : forall n1 n2 (g1 g2 : Registration -> string)
  doc docs,
  (forall d, In d docs -> g2 d <> g2 doc) ->
  violates [(n1, g1); (n2, g2)] doc docs = false.
Proof.
  intros n1 n2 g1 g2 doc docs H. unfold violates.
  destruct (existsb _ docs) eqn:E; [|reflexivity].
  apply existsb_exists in E as (d & Hin & Hk).
  unfold same_key in Hk. simpl in Hk.
  apply andb_true_iff in Hk as [_ Hk]. rewrite andb_true_r in Hk.
  apply String.eqb_eq in Hk. exfalso. apply (H d Hin). auto.
Qed.

Lemma duplicate_key_fresh : forall v doc docs,
  (forall d, In d docs ->
     registrationId d <> registrationId doc /\ teamName d <> teamName doc
     /\ email d <> email doc /\ mobile d <> mobile doc
     /\ aadhar d <> aadhar doc) ->
  duplicate_key v doc docs = None.
Proof.
  intros v doc docs H. unfold duplicate_key, unique_indexes.
  cbn [app find].
  rewrite !violates_false by (intros d Hd; apply (H d Hd)).
  destruct v; cbn [find]; [|reflexivity].
  rewrite violates_composite_false by (intros d Hd; apply (H d Hd)).
  reflexivity.
Qed.

Lemma schema_valid_after_validation : forall v env b fa fc,
  validationResult v b = [] ->
  required (normalizeEmail (Body.email b)) = true ->
  required (upload_digest v env fa fc fa) = true ->
  required (upload_digest v env fa fc fc) = true ->
  schema_valid v (new_Registration v env (sanitized b) fa fc) = true.
Proof.
  intros v env b fa fc Hval Hmail Hha Hhc.
  apply validation_passes in Hval
    as (_ & Hmob & Hteam & Hlead & Haad & Hsize & Hid & Hev & Hg & Hcol
        & Hcou & Hy & Hr).
  apply mobile_rule_required in Hmob. apply isLength_12_required in Haad.
  apply isInt_bounds in Hsize.
  unfold schema_valid, new_Registration, sanitized. cbn -[Number required].
  unfold notEmpty in *. fold (required (Body.registrationId b)) in Hid.
  unfold required in *.
  rewrite Hid, Hev, Hteam, Hlead, Hmail, Hmob, Hg, Hcol, Hcou, Hy, Hr, Haad.
  rewrite Hha, Hhc.
  replace (1 <=? Number (Body.teamSize b))%Z with true
    by (symmetry; apply Z.leb_le; lia).
  replace (Number (Body.teamSize b) <=? 4)%Z with true
    by (symmetry; apply Z.leb_le; lia).
  destruct v; reflexivity.
Qed.

(** X2.  A document built from a request without validation errors passes
    the validators of the schema, as soon as the normal form of the email
    and the two digests are not empty: after the request validation the
    schema never refuses a field of the form. *)
Theorem validated_document_passes_schema : forall v env b fa fc,
  validationResult v b = [] ->
  required (normalizeEmail (Body.email b)) = true ->
  required (upload_digest v env fa fc fa) = true ->
  required (upload_digest v env fa fc fc) = true ->
  schema_valid v (new_Registration v env (sanitized b) fa fc) = true.
Proof.
  intros v env b fa fc Hval Hmail Hha Hhc.
  apply validation_passes in Hval
    as (_ & Hmob & Hteam & Hlead & Haad & Hsize & Hid & Hev & Hg & Hcol
        & Hcou & Hy & Hr).
  apply mobile_rule_required in Hmob. apply isLength_12_required in Haad.
  apply isInt_bounds in Hsize.
  unfold schema_valid, new_Registration, sanitized. cbn -[Number required].
  unfold notEmpty in *. fold (required (Body.registrationId b)) in Hid.
  unfold required in *.
  rewrite Hid, Hev, Hteam, Hlead, Hmail, Hmob, Hg, Hcol, Hcou, Hy, Hr, Haad.
  rewrite Hha, Hhc.
  replace (1 <=? Number (Body.teamSize b))%Z with true
    by (symmetry; apply Z.leb_le; lia).
  replace (Number (Body.teamSize b) <=? 4)%Z with true
    by (symmetry; apply Z.leb_le; lia).
  destruct v; reflexivity.
Qed.

(** X1.  A submission that passes the upload filter and the validation,
    carries both files, and shares no digest (column by column) and none of
    the five unique fields with a stored record, is accepted when the mail
    goes out: the answer is the 200 receipt, the collection gains exactly
    one record, unconfirmed and dated by the clock, and exactly one mail is
    recorded, for the normalized email. *)
Theorem fresh_valid_submission_is_accepted : forall v env req s fa fc,
  upload v req = None ->
  validationResult v (body req) = [] ->
  files_aadharImage req = Some fa ->
  files_collegeId req = Some fc ->
  required (normalizeEmail (Body.email (body req))) = true ->
  required (upload_digest v env fa fc fa) = true ->
  required (upload_digest v env fa fc fc) = true ->
  (forall d, In d (db s) ->
     aadharImageHash d <> upload_digest v env fa fc fa
     /\ collegeIdHash d <> upload_digest v env fa fc fc
     /\ registrationId d <> Body.registrationId (body req)
     /\ teamName d <> trim (Body.teamName (body req))
     /\ email d <> normalizeEmail (Body.email (body req))
     /\ mobile d <> Body.mobile (body req)
     /\ aadhar d <> Body.aadhar (body req)) ->
  sendMail env = Delivered ->
  let doc := new_Registration v env (sanitized (body req)) fa fc in
  register v env req s
  = (success v (sanitized (body req)) doc,
     {| db := (db s ++ [doc])%list;
        outbox := (outbox s ++ [confirmation_mail v (sanitized (body req))])%list |})
  /\ isConfirmed doc = false
  /\ createdAt doc = now env
  /\ to (confirmation_mail v (sanitized (body req)))
     = normalizeEmail (Body.email (body req)).
Proof.
  intros v env req s fa fc Hup Hval Hfa Hfc Hmail Hha Hhc Hfresh Hsend doc.
  split; [|repeat split].
  unfold register, try_register. rewrite Hup, Hval.
  rewrite (precheck_fresh v env (sanitized (body req)) req s fa fc Hfa Hfc).
  2:{ intros d Hd. destruct (Hfresh d Hd) as (A & C & _ & T & _).
      repeat split; auto. intros [_ E]. apply T. exact E. }
  fold doc. unfold save.
  unfold doc at 1.
  rewrite (schema_valid_after_validation v env (body req) fa fc
             Hval Hmail Hha Hhc).
  fold doc. rewrite duplicate_key_fresh.
  2:{ intros d Hd. destruct (Hfresh d Hd) as (_ & _ & I & T & E & M & A).
      subst doc. simpl. auto. }
  unfold sendConfirmationEmail. rewrite Hsend. simpl.
  destruct v; reflexivity.
Qed.

End Acceptance.

Section Refusals.
Context {L : Lib}.

Lemma team_message_required : forall b, required (team_message b) = true.
Proof. intros b. reflexivity. Qed.

Lemma or_default_required : forall m default,
  required m = true -> or_default m default = m.
Proof.
  intros m default H. unfold or_default, required in *.
  destruct (String.length m =? 0)%nat; [discriminate H|reflexivity].
Qed.

(** X3.  A valid submission with both files whose digests are unseen, and
    whose event and trimmed team name are those of a stored record, is
    refused with "Team '...' is already registered for '...'" and changes
    nothing: the lookup on (event, teamName) answers before the insert is
    tried. *)
Theorem same_event_and_team_is_refused : forall v env req s fa fc d,
  upload v req = None ->
  validationResult v (body req) = [] ->
  files_aadharImage req = Some fa ->
  files_collegeId req = Some fc ->
  (forall d', In d' (db s) ->
     aadharImageHash d' <> upload_digest v env fa fc fa
     /\ collegeIdHash d' <> upload_digest v env fa fc fc) ->
  In d (db s) ->
  event d = Body.event (body req) ->
  teamName d = trim (Body.teamName (body req)) ->
  register v env req s
  = (bad_request (team_message (sanitized (body req))), s).
Proof.
  intros v env req s fa fc d Hup Hval Hfa Hfc Hfresh Hin Hev Hteam.
  unfold register, try_register, precheck. rewrite Hup, Hval, Hfa, Hfc.
  rewrite (findOne_None_intro
             (fun d => (aadharImageHash d =? upload_digest v env fa fc fa)%string)).
  2:{ intros x Hx. apply String.eqb_neq. apply (Hfresh x Hx). }
  rewrite (findOne_None_intro
             (fun d => (collegeIdHash d =? upload_digest v env fa fc fc)%string)).
  2:{ intros x Hx. apply String.eqb_neq. apply (Hfresh x Hx). }
  replace (duplicate_document v None None) with (@None (JsError + response))
    by (destruct v; reflexivity).
  destruct (findOne_found
              (fun x => (event x =? Body.event (sanitized (body req)))%string
                        && (teamName x =? Body.teamName (sanitized (body req)))%string)
              (db s) d Hin) as [d' ->].
  { simpl. rewrite Hev, Hteam, !String.eqb_refl. reflexivity. }
  destruct v; [reflexivity|].
  cbn [refuse]. unfold catch_register. cbn [is_11000 Error code err_message].
  rewrite or_default_required by apply team_message_required.
  reflexivity.
Qed.

Lemma violates_composite_teamName : forall n1 n2 n (g1 : Registration -> string)
  doc docs,
  violates [(n1, g1); (n2, teamName)] doc docs = true ->
  violates [(n, teamName)] doc docs = true.
Proof.
  intros n1 n2 n g1 doc docs H. unfold violates in *.
  apply existsb_exists in H as (d & Hin & Hk).
  apply existsb_exists. exists d. split; [exact Hin|].
  unfold same_key in *. simpl in *.
  apply andb_true_iff in Hk as [_ Hk]. exact Hk.
Qed.

Lemma duplicate_key_single : forall v doc docs kp,
  duplicate_key v doc docs = Some kp ->
  exists field,
    kp = [field]
    /\ In field ["registrationId"; "teamName"; "email"; "mobile"; "aadhar"].
Proof.
  intros v doc docs kp. unfold duplicate_key, unique_indexes.
  cbn [app find].
  destruct (violates [("registrationId", registrationId)] doc docs);
    [intros H; inversion H; exists "registrationId"; simpl; auto|].
  destruct (violates [("teamName", teamName)] doc docs) eqn:Et;
    [intros H; inversion H; exists "teamName"; simpl; auto|].
  destruct (violates [("email", email)] doc docs);
    [intros H; inversion H; exists "email"; simpl; auto|].
  destruct (violates [("mobile", mobile)] doc docs);
    [intros H; inversion H; exists "mobile"; simpl; auto 6|].
  destruct (violates [("aadhar", aadhar)] doc docs);
    [intros H; inversion H; exists "aadhar"; simpl; auto 7|].
  destruct v; cbn [find option_map]; [|discriminate].
  destruct (violates [("event", event); ("teamName", teamName)] doc docs)
    eqn:E5; [|discriminate].
  apply (violates_composite_teamName _ _ "teamName") in E5. congruence.
Qed.

(** X12.  When the insert of a valid document is refused by a unique
    index, the answer is 400 "<field> already exists" (capitalized on the
    in-memory server) for one of the five single fields, and the state is
    left as it is; the composite index on (event, teamName) is never the
    one that answers, since the index on teamName comes first. *)
Theorem unique_index_refusal_names_one_field : forall v env req s doc,
  upload v req = None ->
  validationResult v (body req) = [] ->
  precheck v env (sanitized (body req)) req s = inr doc ->
  schema_valid v doc = true ->
  duplicate_key v doc (db s) <> None ->
  exists field,
    In field ["registrationId"; "teamName"; "email"; "mobile"; "aadhar"]
    /\ duplicate_key v doc (db s) = Some [field]
    /\ register v env req s = (DuplicateField v field, s).
Proof.
  intros v env req s doc Hup Hval Hpre Hschema Hdup.
  destruct (duplicate_key v doc (db s)) as [kp|] eqn:E; [|contradiction].
  destruct (duplicate_key_single v doc (db s) kp E) as (field & -> & Hin).
  exists field. split; [exact Hin|]. split; [reflexivity|].
  unfold register, try_register. rewrite Hup, Hval, Hpre.
  unfold save. rewrite Hschema, E.
  destruct v; reflexivity.
Qed.

Lemma register_db_after_save : forall v env req s doc docs,
  upload v req = None ->
  validationResult v (body req) = [] ->
  precheck v env (sanitized (body req)) req s = inr doc ->
  save v doc (db s) = inr docs ->
  db (snd (register v env req s)) = (db s ++ [doc])%list.
Proof.
  intros v env req s doc docs Hup Hval Hpre Hsave.
  pose proof Hsave as Hs. apply save_inr in Hs as (-> & _ & _).
  unfold register, try_register, sendConfirmationEmail.
  rewrite Hup, Hval, Hpre, Hsave.
  destruct (sendMail env); destruct v; reflexivity.
Qed.

(** X14.  Once the record of a submission has been inserted, whether its
    mail went out or not, the same submission sent again, at any later
    time, is refused as a duplicate document and changes nothing, provided
    that neither time its two uploads were written to one path: a
    registration whose mail failed cannot be completed by submitting the
    form again. *)
Theorem resubmission_is_refused :
  forall v env env' req s doc docs rs fa fc,
  upload v req = None ->
  validationResult v (body req) = [] ->
  precheck v env (sanitized (body req)) req s = inr doc ->
  save v doc (db s) = inr docs ->
  files_aadharImage req = Some fa ->
  files_collegeId req = Some fc ->
  stored_apart v env fa fc ->
  stored_apart v env' fa fc ->
  exists res,
    register v env' req (run v rs (snd (register v env req s)))
    = (res, run v rs (snd (register v env req s)))
    /\ DuplicateDocument v res.
Proof.
  intros v env env' req s doc docs rs fa fc Hup Hval Hpre Hsave Hfa Hfc
         Hapart Hapart'.
  pose proof (register_db_after_save v env req s doc docs Hup Hval Hpre Hsave)
    as Hdb.
  apply precheck_inr in Hpre as (fa0 & fc0 & Hfa0 & Hfc0 & -> & _).
  rewrite Hfa in Hfa0. rewrite Hfc in Hfc0.
  inversion Hfa0; inversion Hfc0; subst fa0 fc0. clear Hfa0 Hfc0.
  set (s1 := snd (register v env req s)) in *.
  destruct (run_keeps v rs s1
              (new_Registration v env (sanitized (body req)) fa fc))
    as (d' & Hin & [Hsame _]).
  { rewrite Hdb. apply in_or_app. right. left. reflexivity. }
  destruct (precheck_same_column v env' (sanitized (body req)) req
              (run v rs s1) fa fc Hfa Hfc) as (out & Hpre' & Hdup).
  { exists d'. split; [exact Hin|]. left.
    unfold same_except_isConfirmed in Hsame.
    repeat match goal with H : _ /\ _ |- _ => destruct H end.
    rewrite (upload_digest_apart v env' fa fc fa Hapart').
    rewrite <- (upload_digest_apart v env fa fc fa Hapart).
    simpl in *. congruence. }
  unfold register, try_register. rewrite Hup, Hval, Hpre'.
  destruct out; eexists; (split; [reflexivity|exact Hdup]).
Qed.

End Refusals.

Section Invariants.
Context {L : Lib}.

Lemma run_invariant : forall (I : State -> Prop) v,
  (forall r s, I s -> I (snd (handle v r s))) ->
  forall rs s, I s -> I (run v rs s).
Proof.
  intros I v Hstep rs. induction rs as [|r rs IH]; intros s Hs; simpl; auto.
Qed.

Lemma confirm_outbox : forall id s, outbox (snd (confirm id s)) = outbox s.
Proof.
  intros id s. unfold confirm.
  destruct (findOne _ (db s)) as [d|]; [|reflexivity].
  destruct (findIndex _ (db s)) as [i|]; [|reflexivity].
  destruct (isConfirmed d); reflexivity.
Qed.

(** What one request does to the state: nothing, or the flag of one
    record, or one new record with at most one mail for it. *)
Lemma handle_cases : forall v r s,
  snd (handle v r s) = s
  \/ (exists i, snd (handle v r s)
                = {| db := updateAt i confirmed (db s); outbox := outbox s |})
  \/ (exists env req doc,
        r = POST_register env req
        /\ upload v req = None
        /\ validationResult v (body req) = []
        /\ precheck v env (sanitized (body req)) req s = inr doc
        /\ save v doc (db s) = inr (db s ++ [doc])%list
        /\ (snd (handle v r s)
            = {| db := (db s ++ [doc])%list;
                 outbox := (outbox s
                            ++ [confirmation_mail v (sanitized (body req))])%list |}
            \/ snd (handle v r s)
               = {| db := (db s ++ [doc])%list; outbox := outbox s |})).
Proof.
  intros v [env req|id|] s; simpl.
  - destruct (register_outcome v env req s)
      as [(res & -> & _)|(doc & Hup & Hval & Hpre & Hsave & ->)];
      [left; reflexivity|].
    right. right. exists env, req, doc. repeat split; auto.
    destruct (sendMail env); [left|right]; reflexivity.
  - pose proof (confirm_outbox id s) as Ho.
    destruct (confirm_db id s) as [Hd|[i Hd]].
    + left. destruct (snd (confirm id s)) as [d o], s as [d0 o0].
      simpl in *. congruence.
    + right. left. exists i.
      destruct (snd (confirm id s)) as [d o]. simpl in *. congruence.
  - left. apply export_excel_state.
Qed.

Lemma In_updateAt_confirmed : forall docs i d',
  In d' (updateAt i confirmed docs) ->
  exists d, In d docs /\ (d' = d \/ d' = confirmed d).
Proof.
  induction docs as [|x docs IH]; intros i d'; simpl; [intros []|].
  destruct i as [|i]; simpl.
  - intros [<-|H]; eauto.
  - intros [<-|H]; eauto.
    destruct (IH i d' H) as (d & Hd & Hor). eauto.
Qed.

Lemma In_updateAt_image : forall docs i d,
  In d docs ->
  In d (updateAt i confirmed docs) \/ In (confirmed d) (updateAt i confirmed docs).
Proof.
  induction docs as [|x docs IH]; intros i d; simpl; [intros []|].
  destruct i as [|i]; simpl.
  - intros [<-|H]; auto.
  - intros [<-|H]; auto.
    destruct (IH i d H); auto.
Qed.

Lemma length_updateAt : forall g docs i,
  List.length (updateAt i g docs) = List.length docs.
Proof.
  intros g. induction docs as [|x docs IH]; intros [|i]; simpl; auto.
Qed.

Lemma handle_unique_digests : forall v r s,
  unique_digests (db s) -> unique_digests (db (snd (handle v r s))).
Proof.
  intros v r s [Ha Hc].
  destruct (handle_cases v r s)
    as [->|[(i & ->)|(env & req & doc & _ & _ & _ & Hpre & _ & Hs)]].
  - split; assumption.
  - unfold unique_digests. simpl.
    rewrite !map_updateAt_confirmed by reflexivity. split; assumption.
  - apply precheck_inr in Hpre as (fa & fc & _ & _ & -> & Hfree).
    assert (Hdb : db (snd (handle v r s))
                  = (db s ++ [new_Registration v env (sanitized (body req)) fa fc])%list)
      by (destruct Hs as [->| ->]; reflexivity).
    rewrite Hdb. split; apply NoDup_map_snoc; auto;
      intros d Hd; apply (Hfree d Hd).
Qed.

Lemma handle_mails_have_records : forall v r s,
  mails_have_records v s -> mails_have_records v (snd (handle v r s)).
Proof.
  intros v r s [Hm Hlen].
  destruct (handle_cases v r s)
    as [->|[(i & ->)|(env & req & doc & _ & _ & _ & Hpre & _ & Hs)]].
  - split; assumption.
  - split; simpl.
    + intros m Hin. destruct (Hm m Hin) as (d & Hd & ->).
      destruct (In_updateAt_image (db s) i d Hd) as [H|H]; eauto.
    + now rewrite length_updateAt.
  - apply precheck_inr in Hpre as (fa & fc & _ & _ & -> & _).
    destruct Hs as [->| ->]; split; simpl.
    + intros m Hin. apply in_app_or in Hin as [Hin|[<-|[]]].
      * destruct (Hm m Hin) as (d & Hd & ->). exists d.
        split; [apply in_or_app; auto|reflexivity].
      * eexists. split; [apply in_or_app; right; left; reflexivity|].
        reflexivity.
    + rewrite !length_app. simpl. lia.
    + intros m Hin. destruct (Hm m Hin) as (d & Hd & ->). exists d.
      split; [apply in_or_app; auto|reflexivity].
    + rewrite length_app. simpl. lia.
Qed.

(** X4.  As long as the requests are served one after the other, each
    one answered before the next one starts, no two records have the same
    [aadharImageHash] and no two have the same [collegeIdHash], in every
    state that is reached from the empty collection: the two lookups of
    the route keep each column free of repetitions.  No index of the
    schema asks for it, and the property is lost when two submissions
    overlap. *)
Theorem digests_are_unique_per_column : forall v rs,
  unique_digests (db (run v rs initial)).
Proof.
  intros v rs.
  apply (run_invariant (fun s => unique_digests (db s)) v).
  - intros r s. apply handle_unique_digests.
  - split; constructor.
Qed.

Lemma register_in_two_steps : forall v env req s,
  register v env req s
  = match register_checks v env req s with
    | inl res => (res, s)
    | inr registration => register_insert v env req registration s
    end.
Proof.
  intros v env req s. unfold register, register_checks.
  destruct (upload v req); [reflexivity|].
  destruct (validationResult v (body req)); [|reflexivity].
  unfold try_register, register_insert.
  destruct (precheck v env (sanitized (body req)) req s) as [[err|res]|doc];
    try reflexivity.
  destruct (save v doc (db s)); [reflexivity|].
  destruct (sendConfirmationEmail v env (sanitized (body req)) _) as [[err|u] s2];
    reflexivity.
Qed.




(** X5.  In every state that a server reaches from the empty collection,
    each recorded mail was sent for a stored record, to its stored email
    and with the link of its registration id, and there are never more
    mails than records: no mail goes out for a submission that was not
    stored. *)
Theorem every_mail_has_a_record : forall v rs,
  mails_have_records v (run v rs initial).
Proof.
  intros v rs. apply (run_invariant (mails_have_records v) v).
  - intros r s. apply handle_mails_have_records.
  - split; simpl; [intros m []|lia].
Qed.

(** X8.  The flag [isConfirmed] never goes back: after any sequence of
    requests, every record that was stored is still at its place with its
    registration id, and is confirmed if it was. *)
Theorem confirmation_is_never_undone : forall v rs s,
  exists kept added,
    db (run v rs s) = (kept ++ added)%list
    /\ Forall2 (fun d d' =>
                  registrationId d' = registrationId d
                  /\ (isConfirmed d = true -> isConfirmed d' = true))
               (db s) kept.
Proof.
  intros v rs s. destruct (run_evolves v rs s) as (kept & added & E & F).
  exists kept, added. split; [exact E|].
  clear E. induction F as [|x y l k [Hs Hm] F IH]; constructor; auto.
  split; [apply Hs|exact Hm].
Qed.

End Invariants.

Section StoredRecords.
Context {L : Lib}.

Lemma rtrim_idempotent : forall s, rtrim (rtrim s) = rtrim s.
Proof.
  induction s as [|c s IH]; simpl; [reflexivity|].
  destruct (rtrim s) as [|c' r] eqn:E.
  - destruct (is_space c) eqn:Hc; simpl; [reflexivity|].
    now rewrite Hc.
  - simpl. simpl in IH. rewrite IH. reflexivity.
Qed.

Lemma ltrim_head : forall s,
  ltrim s = EmptyString
  \/ exists c t, ltrim s = String c t /\ is_space c = false.
Proof.
  induction s as [|c s IH]; simpl; [left; reflexivity|].
  destruct (is_space c) eqn:Hc; [exact IH|].
  right. eauto.
Qed.

Lemma trim_idempotent : forall s, trim (trim s) = trim s.
Proof.
  intros s. unfold trim.
  destruct (ltrim_head s) as [->|(c & t & -> & Hc)]; [reflexivity|].
  assert (Hl : ltrim (rtrim (String c t)) = rtrim (String c t)).
  { simpl. destruct (rtrim t); simpl; rewrite Hc; simpl; now rewrite ?Hc. }
  rewrite Hl. apply rtrim_idempotent.
Qed.

Lemma isLength_12_length : forall s,
  isLength 12 12 s = true -> String.length s = 12%nat.
Proof.
  intros s H. unfold isLength in H. apply andb_true_iff in H as [H1 H2].
  apply Nat.leb_le in H1. apply Nat.leb_le in H2. lia.
Qed.

Lemma schema_valid_confirmed : forall v d,
  schema_valid v (confirmed d) = schema_valid v d.
Proof. reflexivity. Qed.

Lemma well_formed_confirmed : forall v d,
  well_formed v d -> well_formed v (confirmed d).
Proof. intros v d H. exact H. Qed.

Lemma handle_well_formed : forall v r s,
  Forall (well_formed v) (db s) ->
  Forall (well_formed v) (db (snd (handle v r s))).
Proof.
  intros v r s Hall.
  destruct (handle_cases v r s)
    as [->|[(i & ->)|(env & req & doc & _ & _ & Hval & Hpre & Hsave & Hs)]].
  - exact Hall.
  - simpl. apply Forall_forall. intros d' Hin.
    apply In_updateAt_confirmed in Hin as (d & Hd & [->| ->]).
    + eapply Forall_forall in Hall; eauto.
    + apply well_formed_confirmed. eapply Forall_forall in Hall; eauto.
  - assert (Hdb : db (snd (handle v r s)) = (db s ++ [doc])%list)
      by (destruct Hs as [->| ->]; reflexivity).
    rewrite Hdb. apply Forall_app. split; [exact Hall|].
    constructor; [|constructor].
    apply save_inr in Hsave as (_ & Hschema & _).
    apply precheck_inr in Hpre as (fa & fc & _ & _ & -> & _).
    apply validation_passes in Hval
      as (_ & Hmob & _ & _ & Haad & Hsize & _).
    unfold well_formed. cbn -[Number trim schema_valid].
    split; [exact Hschema|].
    split; [apply isLength_12_length, Haad|].
    split; [rewrite <- mobile_rule_spec; exact Hmob|].
    split; [apply isInt_bounds, Hsize|].
    split; apply trim_idempotent.
Qed.

(** X6.  In every state that a server reaches from the empty collection,
    every stored record is as the request validation left it: it passes
    the validators of the schema, its Aadhar number has 12 characters, its
    mobile number is one that the server lets through, its team size is
    between 1 and 4, and its team name and team leader name have no white
    space around them. *)
Theorem stored_records_are_well_formed : forall v rs,
  Forall (well_formed v) (db (run v rs initial)).
Proof.
  intros v rs.
  apply (run_invariant (fun s => Forall (well_formed v) (db s)) v).
  - intros r s. apply handle_well_formed.
  - constructor.
Qed.

End StoredRecords.

Section RoundTrips.
Context {L : Lib}.

Lemma findOne_last : forall f docs x,
  (forall d, In d docs -> f d = false) -> f x = true ->
  findOne f (docs ++ [x]) = Some x
  /\ findIndex f (docs ++ [x]) = Some (List.length docs).
Proof.
  intros f docs x Hno Hx. unfold findOne.
  induction docs as [|d docs IH]; simpl.
  - rewrite Hx. auto.
  - rewrite (Hno d (or_introl eq_refl)).
    destruct IH as [-> ->]; [intros y Hy; apply Hno; right; exact Hy|].
    auto.
Qed.

Lemma updateAt_last : forall g docs x,
  updateAt (List.length docs) g (docs ++ [x]) = (docs ++ [g x])%list.
Proof.
  intros g docs x. induction docs as [|d docs IH]; simpl; [reflexivity|].
  now rewrite IH.
Qed.

(** X7.  An accepted registration can be confirmed at once.  The mail goes
    to the stored email, and its link is the base URL of the server
    followed by [/api/confirm/] and the registration id of the new record,
    written as it was typed, without any encoding.  A confirmation request
    whose route parameter is that registration id answers 200 and sets the
    flag of the new record, leaving every older record and the mails as
    they are.  (Whether a request for the mailed link reaches the route
    with that parameter depends on the base URL and on the characters of
    the id, and is not stated here.) *)
Theorem accepted_registration_can_be_confirmed : forall v env req s res s1,
  register v env req s = (res, s1) ->
  status res = 200%Z ->
  exists doc m,
    db s1 = (db s ++ [doc])%list
    /\ outbox s1 = (outbox s ++ [m])%list
    /\ registrationId doc = Body.registrationId (body req)
    /\ isConfirmed doc = false
    /\ to m = email doc
    /\ confirmationLink m
       = backend_url v ++ "/api/confirm/" ++ registrationId doc
    /\ confirm (registrationId doc) s1
       = (confirmed_ok,
          {| db := (db s ++ [confirmed doc])%list; outbox := outbox s1 |}).
Proof.
  intros v env req s res s1 Hreg Hst.
  apply accepted_inv in Hreg as (fa & fc & Hacc); [|exact Hst].
  cbv zeta in Hacc.
  destruct Hacc as (_ & _ & _ & _ & _ & _ & Hkey & _ & _ & ->).
  set (doc := new_Registration v env (sanitized (body req)) fa fc) in *.
  exists doc, (confirmation_mail v (sanitized (body req))).
  do 6 (split; [reflexivity|]).
  unfold confirm. cbn [db outbox].
  destruct (findOne_last
              (fun d => (registrationId d =? registrationId doc)%string)
              (db s) doc) as [-> ->].
  - intros d Hd. apply String.eqb_neq.
    eapply duplicate_key_None in Hkey as (K & _); [exact K|exact Hd].
  - apply String.eqb_refl.
  - cbn [isConfirmed doc new_Registration]. rewrite updateAt_last. reflexivity.
Qed.

Lemma export_row_evolves : forall d d', evolves d d' -> export_row d' = export_row d.
Proof.
  intros d d' [H _]. unfold same_except_isConfirmed in H.
  repeat match goal with H : _ /\ _ |- _ => destruct H end.
  unfold export_row. congruence.
Qed.

Lemma map_export_row_evolves : forall l k,
  Forall2 evolves l k -> map export_row k = map export_row l.
Proof.
  intros l k F. induction F as [|x y l k Hxy F IH]; simpl; [reflexivity|].
  now rewrite (export_row_evolves x y Hxy), IH.
Qed.

(** X13.  The sheet of the export route only grows: after any sequence of
    requests the rows of the records that were stored are the same rows in
    the same order, confirmations included, and the new records follow;
    every row has the thirteen cells of the header.  Hence, once a record
    is stored, the in-memory server answers the export with 200 and a
    sheet that begins with the header and the old rows. *)
Theorem export_rows_only_grow : forall v rs s,
  exists added,
    map export_row (db (run v rs s))
    = (map export_row (db s) ++ map export_row added)%list
    /\ Forall (fun row => List.length row = List.length export_header)
         (map export_row (db (run v rs s)))
    /\ (db s <> [] ->
        fst (export_excel InMemory (run v rs s))
        = {| status := 200;
             payload :=
               JWorkbook (export_header
                          :: map export_row (db s) ++ map export_row added) |}).
Proof.
  intros v rs s. destruct (run_evolves v rs s) as (kept & added & E & F).
  exists added.
  assert (Hrows : map export_row (db (run v rs s))
                  = (map export_row (db s) ++ map export_row added)%list).
  { rewrite E, map_app, (map_export_row_evolves (db s) kept F). reflexivity. }
  split; [exact Hrows|]. split.
  - apply Forall_forall. intros row Hin.
    apply in_map_iff in Hin as (d & <- & _). reflexivity.
  - intros Hne. unfold export_excel.
    destruct (db (run v rs s)) as [|d0 l0] eqn:Hdb.
    + exfalso. simpl in Hrows. symmetry in Hrows.
      apply app_eq_nil in Hrows as [H _].
      destruct (db s); [contradiction|discriminate H].
    + cbn [fst]. rewrite <- Hrows. reflexivity.
Qed.

End RoundTrips.

Section Uploads.
Context {L : Lib}.

Lemma accept_file_sized : forall v f,
  fileFilter v f = true ->
  accept_file v (Some f)
  = if over_limit (Z.of_nat (List.length (buffer f)))
    then Some LIMIT_FILE_SIZE else None.
Proof. intros v f H. unfold accept_file. now rewrite H. Qed.

Lemma accept_file_size_or_nothing : forall v file,
  filter_passes v file = true ->
  accept_file v file = Some LIMIT_FILE_SIZE \/ accept_file v file = None.
Proof.
  intros v [f|] H; [|right; reflexivity]. simpl in H.
  rewrite (accept_file_sized v f H).
  destruct (over_limit _); auto.
Qed.

Lemma accept_file_too_large : forall v file,
  filter_passes v file = true -> too_large file = true ->
  accept_file v file = Some LIMIT_FILE_SIZE.
Proof.
  intros v [f|] Hf Hsize; [|discriminate Hsize]. simpl in Hf, Hsize.
  rewrite (accept_file_sized v f Hf). unfold over_limit, fileSize.
  now rewrite Hsize.
Qed.

(** X9.  When every file of a submission passes the type filter and one
    of them has more than 300000 bytes, the answer is 400 "File size must
    be 300KB or less", in whichever order the two files arrive and whatever
    the fields of the form are, and the state is left as it is.  A file of
    fewer than 300000 bytes that passes the type filter raises no upload
    error; a file of exactly 300000 bytes is refused or let through as the
    installed multer decides. *)
Theorem oversized_upload_is_refused : forall v env req s,
  (filter_passes v (files_aadharImage req) = true ->
   filter_passes v (files_collegeId req) = true ->
   too_large (files_aadharImage req) || too_large (files_collegeId req) = true ->
   register v env req s
   = ({| status := 400; payload := JError "File size must be 300KB or less" |},
      s))
  /\ (forall f,
        fileFilter v f = true ->
        (Z.of_nat (List.length (buffer f)) < 300000)%Z ->
        accept_file v (Some f) = None)
  /\ (forall f,
        fileFilter v f = true ->
        Z.of_nat (List.length (buffer f)) = 300000%Z ->
        accept_file v (Some f)
        = if refuses_at_limit then Some LIMIT_FILE_SIZE else None).
Proof.
  intros v env req s. split; [|split].
  - intros Ha Hc Hlarge.
    assert (Hup : upload v req = Some LIMIT_FILE_SIZE).
    { unfold upload, file_parts.
      apply orb_true_iff in Hlarge.
      destruct (collegeId_first req); cbn [fst snd].
      - destruct (accept_file_size_or_nothing v (files_collegeId req) Hc)
          as [->|Ec]; [reflexivity|].
        rewrite Ec. destruct Hlarge as [Hl|Hl].
        + apply accept_file_too_large; assumption.
        + rewrite (accept_file_too_large v (files_collegeId req) Hc Hl) in Ec.
          discriminate Ec.
      - destruct (accept_file_size_or_nothing v (files_aadharImage req) Ha)
          as [->|Ea]; [reflexivity|].
        rewrite Ea. destruct Hlarge as [Hl|Hl].
        + rewrite (accept_file_too_large v (files_aadharImage req) Ha Hl) in Ea.
          discriminate Ea.
        + apply accept_file_too_large; assumption. }
    unfold register. rewrite Hup. reflexivity.
  - intros f Hf Hsize. rewrite (accept_file_sized v f Hf).
    unfold over_limit, fileSize.
    replace (300000 <? Z.of_nat (List.length (buffer f)))%Z with false
      by (symmetry; apply Z.ltb_ge; lia).
    replace (Z.of_nat (List.length (buffer f)) =? 300000)%Z with false
      by (symmetry; apply Z.eqb_neq; lia).
    now rewrite andb_false_r.
  - intros f Hf Hsize. rewrite (accept_file_sized v f Hf).
    unfold over_limit, fileSize. rewrite Hsize.
    cbn. now rewrite andb_true_r.
Qed.

End Uploads.

(** ** The upload filter and the form *)

Lemma deriv_Any : forall c, deriv c Any = Eps.
Proof. intros [[] [] [] [] [] [] [] []]; reflexivity. Qed.

Lemma accepts_Star_Any : forall s, accepts (Star Any) s = true.
Proof.
  induction s as [|c s IH]; [reflexivity|].
  change (accepts (Star Any) (String c s))
    with (accepts (Seq (deriv c Any) (Star Any)) s).
  rewrite deriv_Any, accepts_Seq_Eps. exact IH.
Qed.

Lemma accepts_search : forall r s,
  accepts (Seq (Star Any) r) s =
  accepts r s
  || match s with
     | EmptyString => false
     | String _ s' => accepts (Seq (Star Any) r) s'
     end.
Proof.
  intros r [|c s].
  - simpl. now rewrite orb_false_r.
  - change (accepts (Seq (Star Any) r) (String c s))
      with (accepts (Alt (Seq (Seq (deriv c Any) (Star Any)) r) (deriv c r)) s).
    rewrite deriv_Any, accepts_Alt, accepts_Seq_assoc, accepts_Seq_Eps.
    apply orb_comm.
Qed.

Lemma accepts_Lit_then_any : forall w s,
  accepts (Seq (Lit w) (Star Any)) s = starts_with w s.
Proof.
  intros w s. rewrite accepts_Seq_Lit. unfold starts_with.
  destruct (after w s); [apply accepts_Star_Any|reflexivity].
Qed.

Lemma test_fileTypes_step : forall s,
  test fileTypes s =
  (starts_with "jpeg" s || starts_with "jpg" s
   || starts_with "png" s || starts_with "pdf" s)
  || match s with
     | EmptyString => false
     | String _ s' => test fileTypes s'
     end.
Proof.
  intros s. unfold test at 1. rewrite accepts_search.
  f_equal. unfold fileTypes.
  rewrite !accepts_Seq_Alt, !accepts_Lit_then_any.
  now rewrite !orb_assoc.
Qed.

Lemma test_fileTypes_spec : forall s, test fileTypes s = names_a_file_type s.
Proof.
  unfold names_a_file_type.
  induction s as [|c s IH]; [reflexivity|].
  rewrite test_fileTypes_step, IH. cbn [contains].
  destruct (starts_with "jpeg" (String c s)), (starts_with "jpg" (String c s)),
    (starts_with "png" (String c s)), (starts_with "pdf" (String c s)),
    (contains "jpeg" s), (contains "jpg" s), (contains "png" s),
    (contains "pdf" s); reflexivity.
Qed.

(** X10.  The type filter looks for a word, not for a type: the in-memory
    server lets an upload through exactly when one of [jpeg], [jpg], [png],
    [pdf] occurs somewhere in its declared media type, and the disk-backed
    server exactly when, in addition, one of them occurs somewhere in the
    lowercased extension of its file name. *)
Theorem fileFilter_looks_for_a_word : forall f,
  fileFilter InMemory f = names_a_file_type (mimetype f)
  /\ fileFilter DiskBacked f
     = names_a_file_type (toLowerCase (extname (originalname f)))
       && names_a_file_type (mimetype f).
Proof.
  intros f. unfold fileFilter. now rewrite !test_fileTypes_spec.
Qed.

Lemma aadhar_pattern_spec : forall s,
  matches Form.aadhar_pattern s = twelve_digits s.
Proof.
  intros s. unfold matches, Form.aadhar_pattern, Rng, twelve_digits.
  rewrite accepts_Times_Cls. f_equal. apply all_chars_ext, class_digit.
Qed.

Section FormAndServer.
Context {L : Lib}.

(** X11.  A mobile number and an Aadhar number that pass the checks of
    the form raise no error of the mobile chain and of the Aadhar chain on
    either server, and the Aadhar check of the form is the check for
    twelve digits.  A file that the form lets through for its size is let
    through by the upload middleware when it has fewer than 300000 bytes;
    a file of exactly 300000 bytes passes the form and is refused by the
    middleware when the installed multer refuses at the limit. *)
Theorem form_checks_imply_server_checks : forall v b,
  Form.mobile_ok (Body.mobile b) = true ->
  Form.aadhar_ok (Body.aadhar b) = true ->
  ~ In {| param := "mobile"; msg := mobile_message v |} (validationResult v b)
  /\ ~ In {| param := "aadhar"; msg := "Aadhar must be 12 digits" |}
          (validationResult v b)
  /\ twelve_digits (Body.aadhar b) = true
  /\ (forall f,
        fileFilter v f = true ->
        Form.file_ok (Z.of_nat (List.length (buffer f))) = true ->
        Z.of_nat (List.length (buffer f)) <> 300000%Z ->
        accept_file v (Some f) = None)
  /\ (forall f,
        fileFilter v f = true ->
        Z.of_nat (List.length (buffer f)) = 300000%Z ->
        Form.file_ok (Z.of_nat (List.length (buffer f))) = true
        /\ accept_file v (Some f)
           = if refuses_at_limit then Some LIMIT_FILE_SIZE else None).
Proof.
  intros v b Hm Ha. unfold Form.mobile_ok in Hm. unfold Form.aadhar_ok in Ha.
  rewrite aadhar_pattern_spec in Ha.
  split; [|split; [|split; [exact Ha|split]]].
  - rewrite mobile_error_iff, mobile_rule_spec.
    rewrite mobile_pattern_spec in Hm.
    destruct v; simpl; rewrite Hm; discriminate.
  - rewrite aadhar_error_iff. intros Hn. apply Hn.
    unfold twelve_digits in Ha. apply andb_true_iff in Ha as [Hl _].
    apply Nat.eqb_eq in Hl. exact Hl.
  - intros f Hf Hsize Hne. unfold accept_file. rewrite Hf.
    unfold Form.file_ok, Form.MAX_FILE_SIZE in Hsize.
    unfold over_limit, fileSize.
    apply negb_true_iff in Hsize. rewrite Hsize.
    apply Z.eqb_neq in Hne. rewrite Hne. now rewrite andb_false_r.
  - intros f Hf Hsize. split.
    + rewrite Hsize. reflexivity.
    + unfold accept_file. rewrite Hf. unfold over_limit, fileSize.
      rewrite Hsize. cbn. now rewrite andb_true_r.
Qed.

End FormAndServer.

(** ** The team size *)

Lemma accepts_Star_Cls : forall rs s,
  accepts (Star (Cls rs)) s = all_chars (in_class rs) s.
Proof.
  intros rs. induction s as [|c s IH]; [reflexivity|].
  cbn [accepts deriv all_chars].
  destruct (in_class rs c); simpl.
  - rewrite accepts_Seq_Eps. exact IH.
  - apply accepts_Seq_Void.
Qed.

Lemma accepts_zeros_then_digit : forall s,
  accepts (Seq (Star (Chr "0")) (Rng "1" "4")) s = zeros_then_digit s.
Proof.
  induction s as [|c s IH]; [reflexivity|].
  change (accepts (Seq (Star (Chr "0")) (Rng "1" "4")) (String c s))
    with (accepts (Alt (Seq (Seq (deriv c (Chr "0")) (Star (Chr "0")))
                            (Rng "1" "4"))
                       (deriv c (Rng "1" "4"))) s).
  rewrite accepts_Alt, accepts_Seq_assoc.
  unfold Chr at 1, Rng at 2. cbn [deriv in_class existsb fst snd].
  rewrite !orb_false_r, in_range_same. cbn [zeros_then_digit].
  rewrite (Ascii.eqb_sym c "0").
  destruct (Ascii.eqb_spec "0"%char c) as [<-|Hne].
  - rewrite accepts_Seq_Eps, IH. cbn. rewrite accepts_Void. apply orb_false_r.
  - rewrite accepts_Seq_Void. cbn [orb].
    destruct (in_range "1" "4" c).
    + rewrite accepts_Eps. destruct s; reflexivity.
    + apply accepts_Void.
Qed.

Lemma Number_cases : forall c s,
  Number (String c s) =
  if Ascii.eqb c "-" then (- digits_value 0 s)%Z
  else if Ascii.eqb c "+" then digits_value 0 s
  else digits_value 0 (String c s).
Proof. intros [[] [] [] [] [] [] [] []] s; reflexivity. Qed.

Lemma digits_value_shift : forall s acc,
  digits_value acc s
  = (acc * 10 ^ Z.of_nat (String.length s) + digits_value 0 s)%Z.
Proof.
  induction s as [|c s IH]; intros acc.
  - simpl. lia.
  - cbn [digits_value String.length].
    rewrite (IH (10 * acc + _)%Z), (IH (10 * 0 + _)%Z).
    rewrite Nat2Z.inj_succ, Z.pow_succ_r by lia. ring.
Qed.

Lemma digits_value_nonneg : forall s, (0 <= digits_value 0 s)%Z.
Proof.
  assert (H : forall s acc, (0 <= acc -> 0 <= digits_value acc s)%Z).
  { induction s as [|c s IH]; intros acc Hacc; cbn [digits_value];
      [exact Hacc|].
    apply IH. lia. }
  intros s. apply H. lia.
Qed.

Lemma digit_cases : forall c,
  is_digit c = true ->
  let n := Z.of_nat (char_code c - 48) in
  (Ascii.eqb c "0" = true /\ n = 0%Z)
  \/ (Ascii.eqb c "0" = false /\ in_range "1" "4" c = true /\ (1 <= n <= 4)%Z)
  \/ (Ascii.eqb c "0" = false /\ in_range "1" "4" c = false /\ (5 <= n <= 9)%Z).
Proof.
  intros [[] [] [] [] [] [] [] []] H; try discriminate H; cbv zeta;
    first [left; split; [reflexivity|reflexivity]
          |right; left; split; [reflexivity|split; [reflexivity|]];
           vm_compute; split; intros H'; discriminate H'
          |right; right; split; [reflexivity|split; [reflexivity|]];
           vm_compute; split; intros H'; discriminate H'].
Qed.

Lemma small_value_spec : forall s,
  all_chars is_digit s = true ->
  ((1 <=? digits_value 0 s)%Z && (digits_value 0 s <=? 4)%Z)
  = zeros_then_digit s.
Proof.
  induction s as [|c s IH]; intros Hd; [reflexivity|].
  cbn [all_chars] in Hd. apply andb_true_iff in Hd as [Hc Hs].
  cbn [digits_value zeros_then_digit]. rewrite digits_value_shift.
  pose proof (digits_value_nonneg s) as Hnn.
  destruct (digit_cases c Hc) as [[E Hn]|[(E & R & Hn)|(E & R & Hn)]];
    cbv zeta in Hn; rewrite E.
  - rewrite Hn. rewrite <- (IH Hs). f_equal; f_equal; lia.
  - rewrite R. destruct s as [|c' s'].
    + simpl. apply andb_true_iff. split; [apply Z.leb_le|apply Z.leb_le]; lia.
    + cbn [andb]. apply andb_false_iff. right. apply Z.leb_gt.
      assert (10 <= 10 ^ Z.of_nat (String.length (String c' s')))%Z.
      { cbn [String.length]. rewrite Nat2Z.inj_succ, Z.pow_succ_r by lia.
        assert (0 < 10 ^ Z.of_nat (String.length s'))%Z
          by (apply Z.pow_pos_nonneg; lia).
        lia. }
      nia.
  - rewrite R. cbn [andb]. apply andb_false_iff. right. apply Z.leb_gt.
    assert (0 < 10 ^ Z.of_nat (String.length s))%Z
      by (apply Z.pow_pos_nonneg; lia).
    nia.
Qed.

Lemma zeros_then_digit_digits : forall s,
  zeros_then_digit s = true ->
  all_chars is_digit s = true /\ s <> EmptyString.
Proof.
  induction s as [|c s IH]; [discriminate|].
  cbn [zeros_then_digit all_chars]. split; [|discriminate].
  destruct (Ascii.eqb_spec c "0") as [->|Hne].
  - destruct (IH H) as [Hall _]. rewrite Hall. reflexivity.
  - apply andb_true_iff in H as [Hr He].
    destruct s; [|discriminate He].
    replace (is_digit c) with true; [reflexivity|].
    revert Hr. clear. destruct c as [[] [] [] [] [] [] [] []]; intros H;
      try discriminate H; reflexivity.
Qed.

Lemma accepts_digits_plus : forall s,
  accepts (Plus (Rng "0" "9")) s
  = all_chars is_digit s && match s with EmptyString => false | _ => true end.
Proof.
  intros s. unfold Plus, Rng. rewrite accepts_Seq_Cls.
  destruct s as [|c s]; [reflexivity|].
  rewrite accepts_Star_Cls, class_digit.
  rewrite (all_chars_ext _ _ s class_digit). cbn [all_chars].
  now rewrite andb_true_r.
Qed.

(** X15.  The rule of the team size, [isInt({ min: 1, max: 4 })], lets
    through exactly the texts made of an optional plus sign, any number of
    zeroes and one digit from 1 to 4: "3", "+3" and "003" pass, and
    "0", "5", "-1", "3.0" and " 3" do not. *)
Theorem team_size_rule : forall s,
  isInt 1 4 s = accepts team_size_pattern s.
Proof.
  intros s. unfold isInt, intLeadingZeroes, team_size_pattern, Opt.
  rewrite !accepts_Seq_Alt, !accepts_Seq_Eps, accepts_Seq_Cls, accepts_Seq_Chr.
  rewrite accepts_digits_plus, accepts_zeros_then_digit.
  destruct s as [|c s]; [reflexivity|].
  rewrite Number_cases. cbn [after].
  rewrite (Ascii.eqb_sym "+" c).
  destruct (Ascii.eqb_spec c "-") as [->|Hminus].
  - cbn -[accepts digits_value Z.leb]. rewrite accepts_digits_plus.
    pose proof (digits_value_nonneg s) as Hnn.
    replace (1 <=? - digits_value 0 s)%Z with false
      by (symmetry; apply Z.leb_gt; lia).
    now rewrite andb_false_r.
  - destruct (Ascii.eqb_spec c "+") as [->|Hplus].
    + cbn -[accepts digits_value Z.leb zeros_then_digit].
      rewrite accepts_digits_plus, accepts_zeros_then_digit.
      destruct (all_chars is_digit s) eqn:Hd.
      * rewrite <- andb_assoc, (small_value_spec s Hd).
        destruct s; reflexivity.
      * destruct (zeros_then_digit s) eqn:Hz; [|reflexivity].
        apply zeros_then_digit_digits in Hz as [Hall _]. congruence.
    + replace (in_class [("-", "-"); ("+", "+")]%char c) with false.
      2:{ symmetry. cbn [in_class existsb fst snd].
          rewrite !in_range_same, orb_false_r.
          rewrite (Ascii.eqb_sym "-" c), (Ascii.eqb_sym "+" c).
          destruct (Ascii.eqb_spec c "-"), (Ascii.eqb_spec c "+");
            try contradiction; reflexivity. }
      cbn [andb]. rewrite !orb_false_r.
      destruct (all_chars is_digit (String c s)) eqn:Hd.
      * cbn [andb]. apply (small_value_spec (String c s) Hd).
      * cbn [andb].
        destruct (zeros_then_digit (String c s)) eqn:Hz; [|reflexivity].
        apply zeros_then_digit_digits in Hz as [Hall _]. congruence.
Qed.

Section Answers.
Context {L : Lib}.

(** X16.  What the status of the registration route tells about the
    state.  A 200 means one new record and one mail.  Otherwise either
    nothing was stored and no mail was sent, and then the status is 400
    unless the disk-backed server met a document that its schema refuses;
    or the record was stored and its mail failed, which the disk-backed
    server answers with 500 and the in-memory server with 400, the status
    of all its refusals. *)
Theorem status_and_state : forall v env req s res s1,
  register v env req s = (res, s1) ->
  (status res = 200%Z
   /\ exists doc m,
        s1 = {| db := (db s ++ [doc])%list; outbox := (outbox s ++ [m])%list |})
  \/ (s1 = s
      /\ (status res = 400%Z
          \/ (status res = 500%Z /\ v = DiskBacked
              /\ exists doc,
                   precheck v env (sanitized (body req)) req s = inr doc
                   /\ schema_valid v doc = false)))
  \/ (exists doc m,
        sendMail env = TransportError m
        /\ s1 = {| db := (db s ++ [doc])%list; outbox := outbox s |}
        /\ status res = match v with DiskBacked => 500%Z | InMemory => 400%Z end).
Proof.
  intros v env req s res s1 Hreg. unfold register in Hreg.
  destruct (upload v req) as [err|].
  { inversion Hreg; subst. right. left. split; [reflexivity|].
    left. destruct err; reflexivity. }
  destruct (validationResult v (body req)) as [|e errs].
  2:{ inversion Hreg; subst. right. left. split; [reflexivity|].
      left. reflexivity. }
  unfold try_register in Hreg.
  destruct (precheck v env (sanitized (body req)) req s) as [out|doc] eqn:Hpre.
  { right. left. apply precheck_inl in Hpre as [m ->].
    destruct v; inversion Hreg; subst; (split; [reflexivity|]);
      left; reflexivity. }
  unfold save in Hreg.
  destruct (schema_valid v doc) eqn:Hschema.
  - destruct (duplicate_key v doc (db s)) as [kp|].
    + inversion Hreg; subst. right. left. split; [reflexivity|].
      left. reflexivity.
    + unfold sendConfirmationEmail in Hreg.
      destruct (sendMail env) as [|m] eqn:Hmail.
      * left. destruct v; inversion Hreg; subst;
          (split; [reflexivity|]); eexists _, _; reflexivity.
      * right. right. exists doc, m.
        destruct v; inversion Hreg; subst; repeat split; reflexivity.
  - right. left. destruct v; inversion Hreg; subst; (split; [reflexivity|]).
    + right. repeat split. exists doc. auto.
    + left. reflexivity.
Qed.

(** X17.  Neither server is the stricter one.  A form that the in-memory
    server validates is validated by the disk-backed server, whose mobile
    rule lets more through; uploads that the disk-backed server takes are
    taken by the in-memory server, whose filter does not look at the file
    name. *)
Theorem the_two_servers_compared : forall req,
  (validationResult InMemory (body req) = [] ->
   validationResult DiskBacked (body req) = [])
  /\ (upload DiskBacked req = None -> upload InMemory req = None).
Proof.
  intros req. split.
  - intros H. apply validation_passes in H
      as (H1 & H2 & H3 & H4 & H5 & H6 & H7 & H8 & H9 & H10 & H11 & H12 & H13).
    rewrite mobile_rule_spec in H2. cbn [mobile_accepted_by] in H2.
    unfold validationResult.
    rewrite mobile_rule_spec. cbn [mobile_accepted_by].
    rewrite H1, H2, H3, H4, H5, H6, H7, H8, H9, H10, H11, H12, H13.
    reflexivity.
  - assert (Hfile : forall f, accept_file DiskBacked f = None ->
                              accept_file InMemory f = None).
    { intros [f|]; [|reflexivity]. unfold accept_file, fileFilter.
      destruct (test fileTypes (toLowerCase (extname (originalname f))));
        [|discriminate].
      cbn [andb]. destruct (test fileTypes (mimetype f)); [|discriminate].
      auto. }
    unfold upload, file_parts.
    destruct (collegeId_first req); cbn [fst snd];
      (destruct (accept_file DiskBacked _) eqn:E1; [discriminate|]);
      intros E2; rewrite (Hfile _ E1); apply Hfile, E2.
Qed.

End Answers.

(** ** The stored file names *)






Section MailsAndConfirmations.
Context {L : Lib}.

Lemma handle_outbox_once : forall v r s,
  mails_have_records v s ->
  unique_fields (db s) ->
  NoDup (map to (outbox s)) ->
  NoDup (map to (outbox (snd (handle v r s)))).
Proof.
  intros v r s [Hm _] Hu Hn.
  destruct (handle_cases v r s)
    as [->|[(i & ->)|(env & req & doc & _ & _ & _ & Hpre & Hsave & Hs)]];
    [exact Hn|exact Hn|].
  destruct Hs as [->| ->]; [|exact Hn].
  cbn [outbox]. rewrite map_app. cbn [map].
  apply NoDup_snoc; [exact Hn|].
  intros Hin. apply in_map_iff in Hin as (m & Hto & Hm').
  destruct (Hm m Hm') as (d & Hd & ->).
  apply save_inr in Hsave as (_ & _ & Hkey).
  eapply duplicate_key_None in Hkey as (_ & _ & K & _); [|exact Hd].
  apply precheck_inr in Hpre as (fa & fc & _ & _ & -> & _).
  apply K. exact Hto.
Qed.

(** X19.  Nobody is mailed twice: in every state that a server reaches
    from the empty collection, the recorded mails go to pairwise different
    addresses. *)
Theorem nobody_is_mailed_twice : forall v rs,
  NoDup (map to (outbox (run v rs initial))).
Proof.
  intros v rs.
  assert (H : (fun s => mails_have_records v s /\ unique_fields (db s)
                        /\ NoDup (map to (outbox s))) (run v rs initial)).
  { apply (run_invariant
             (fun s => mails_have_records v s /\ unique_fields (db s)
                       /\ NoDup (map to (outbox s))) v).
    - intros r s (H1 & H2 & H3). split; [|split].
      + apply handle_mails_have_records, H1.
      + apply handle_unique, H2.
      + apply handle_outbox_once; assumption.
    - split; [|split].
      + split; simpl; [intros m []|lia].
      + unfold unique_fields. simpl. repeat split; constructor.
      + constructor. }
  apply H.
Qed.

Lemma confirmed_of_confirmed : forall d, isConfirmed d = true -> confirmed d = d.
Proof. intros [] H. simpl in H. subst. reflexivity. Qed.

Lemma confirm_state : forall id s,
  snd (confirm id s) = {| db := confirm_first id (db s); outbox := outbox s |}.
Proof.
  intros id [docs o]. unfold confirm. cbn [db outbox]. fold (has_id id).
  assert (H : forall l,
             match findOne (has_id id) l, findIndex (has_id id) l with
             | Some d, Some i =>
                 if isConfirmed d then l else updateAt i confirmed l
             | _, _ => l
             end = confirm_first id l).
  { unfold findOne. induction l as [|d l IH]; [reflexivity|].
    cbn [find findIndex confirm_first].
    destruct (has_id id d) eqn:Hd.
    - destruct (isConfirmed d) eqn:Hc; [|reflexivity].
      now rewrite (confirmed_of_confirmed d Hc).
    - destruct (find (has_id id) l) as [x|]; [|now rewrite <- IH].
      destruct (findIndex (has_id id) l) as [i|]; cbn [option_map];
        [|now rewrite <- IH].
      destruct (isConfirmed x); [now rewrite <- IH|].
      cbn [updateAt]. now rewrite IH. }
  rewrite <- (H docs).
  destruct (findOne (has_id id) docs) as [d|]; [|reflexivity].
  destruct (findIndex (has_id id) docs) as [i|]; [|reflexivity].
  destruct (isConfirmed d); reflexivity.
Qed.

Lemma confirm_first_commute : forall a b docs,
  confirm_first a (confirm_first b docs) = confirm_first b (confirm_first a docs).
Proof.
  intros a b. induction docs as [|d docs IH]; [reflexivity|].
  cbn [confirm_first].
  destruct (has_id a d) eqn:Ha, (has_id b d) eqn:Hb; cbn [confirm_first];
    change (has_id a (confirmed d)) with (has_id a d);
    change (has_id b (confirmed d)) with (has_id b d);
    rewrite ?Ha, ?Hb; try reflexivity.
  now rewrite IH.
Qed.

(** X20.  Confirmations commute: two confirmation requests, for the same
    id or for different ones, leave the same state in either order. *)
Theorem confirmations_commute : forall a b s,
  snd (confirm a (snd (confirm b s))) = snd (confirm b (snd (confirm a s))).
Proof.
  intros a b s. rewrite !confirm_state. cbn [db outbox].
  now rewrite confirm_first_commute.
Qed.

End MailsAndConfirmations.

(** ** Instances of the further properties *)

Lemma fresh_valid_submission_is_accepted_witness :
  status (fst (register DiskBacked (sample_env 1705) gamma
                 (after_alpha DiskBacked))) = 200%Z
  /\ List.length (db (snd (register DiskBacked (sample_env 1705) gamma
                             (after_alpha DiskBacked)))) = 2%nat.
Proof.
  destruct (fresh_valid_submission_is_accepted DiskBacked (sample_env 1705)
              gamma (after_alpha DiskBacked)
              (pdf "a.pdf" "AADHAR-3") (pdf "c.pdf" "COLLEGE-3"))
    as (H & _).
  - vm_compute; reflexivity.
  - vm_compute; reflexivity.
  - reflexivity.
  - reflexivity.
  - vm_compute; reflexivity.
  - vm_compute; reflexivity.
  - vm_compute; reflexivity.
  - intros d Hd. rewrite after_alpha_db in Hd. destruct Hd as [<-|[]].
    vm_compute. repeat split; discriminate.
  - reflexivity.
  - rewrite H. split; reflexivity.
Defined.

Lemma validated_document_passes_schema_witness :
  schema_valid InMemory
    (new_Registration InMemory (sample_env 1705) (sanitized (body gamma))
       (pdf "a.pdf" "AADHAR-3") (pdf "c.pdf" "COLLEGE-3")) = true.
Proof.
  apply (validated_document_passes_schema InMemory (sample_env 1705)
           (body gamma) (pdf "a.pdf" "AADHAR-3") (pdf "c.pdf" "COLLEGE-3"));
    vm_compute; reflexivity.
Defined.

Lemma same_event_and_team_is_refused_witness :
  register InMemory (sample_env 1706) eta (after_alpha InMemory)
  = (bad_request "Team 'Alpha' is already registered for 'robo-race'",
     after_alpha InMemory).
Proof.
  apply (same_event_and_team_is_refused InMemory (sample_env 1706) eta
           (after_alpha InMemory)
           (pdf "a.pdf" "AADHAR-8") (pdf "c.pdf" "COLLEGE-8")
           (alpha_record InMemory)).
  - vm_compute; reflexivity.
  - vm_compute; reflexivity.
  - reflexivity.
  - reflexivity.
  - intros d Hd. rewrite after_alpha_db in Hd. destruct Hd as [<-|[]].
    vm_compute. split; discriminate.
  - rewrite after_alpha_db. left; reflexivity.
  - vm_compute; reflexivity.
  - vm_compute; reflexivity.
Defined.

Lemma accepted_registration_can_be_confirmed_witness :
  exists doc m,
    db (after_alpha DiskBacked) = ([] ++ [doc])%list
    /\ outbox (after_alpha DiskBacked) = ([] ++ [m])%list
    /\ registrationId doc = "r-1"
    /\ isConfirmed doc = false
    /\ to m = email doc
    /\ confirmationLink m
       = backend_url DiskBacked ++ "/api/confirm/" ++ registrationId doc
    /\ confirm (registrationId doc) (after_alpha DiskBacked)
       = (confirmed_ok,
          {| db := ([] ++ [confirmed doc])%list;
             outbox := outbox (after_alpha DiskBacked) |}).
Proof.
  apply (accepted_registration_can_be_confirmed DiskBacked (sample_env 1700)
           alpha initial
           (fst (register DiskBacked (sample_env 1700) alpha initial))
           (after_alpha DiskBacked)).
  - vm_compute; reflexivity.
  - vm_compute; reflexivity.
Defined.

Lemma oversized_upload_is_refused_witness :
  too_large (files_collegeId kappa) = true
  /\ register DiskBacked (sample_env 1712) kappa (after_alpha DiskBacked)
     = ({| status := 400; payload := JError "File size must be 300KB or less" |},
        after_alpha DiskBacked).
Proof.
  split; [vm_compute; reflexivity|].
  apply (proj1 (oversized_upload_is_refused DiskBacked (sample_env 1712) kappa
                  (after_alpha DiskBacked))).
  - vm_compute; reflexivity.
  - vm_compute; reflexivity.
  - vm_compute; reflexivity.
Defined.

Lemma form_checks_imply_server_checks_witness :
  ~ In {| param := "mobile"; msg := mobile_message DiskBacked |}
       (validationResult DiskBacked (body alpha))
  /\ ~ In {| param := "aadhar"; msg := "Aadhar must be 12 digits" |}
          (validationResult DiskBacked (body alpha))
  /\ twelve_digits (Body.aadhar (body alpha)) = true
  /\ (forall f,
        fileFilter DiskBacked f = true ->
        Form.file_ok (Z.of_nat (List.length (buffer f))) = true ->
        Z.of_nat (List.length (buffer f)) <> 300000%Z ->
        accept_file DiskBacked (Some f) = None)
  /\ (forall f,
        fileFilter DiskBacked f = true ->
        Z.of_nat (List.length (buffer f)) = 300000%Z ->
        Form.file_ok (Z.of_nat (List.length (buffer f))) = true
        /\ accept_file DiskBacked (Some f)
           = if refuses_at_limit then Some LIMIT_FILE_SIZE else None).
Proof.
  apply (form_checks_imply_server_checks DiskBacked (body alpha));
    vm_compute; reflexivity.
Defined.

Lemma unique_index_refusal_names_one_field_witness :
  exists field,
    In field ["registrationId"; "teamName"; "email"; "mobile"; "aadhar"]
    /\ duplicate_key InMemory
         (new_Registration InMemory (sample_env 1704)
            (sanitized (body alpha_again))
            (pdf "a.pdf" "AADHAR-5") (pdf "c.pdf" "COLLEGE-5"))
         (db (after_alpha InMemory)) = Some [field]
    /\ register InMemory (sample_env 1704) alpha_again (after_alpha InMemory)
       = (DuplicateField InMemory field, after_alpha InMemory).
Proof.
  apply (unique_index_refusal_names_one_field InMemory (sample_env 1704)
           alpha_again (after_alpha InMemory)).
  - vm_compute; reflexivity.
  - vm_compute; reflexivity.
  - vm_compute; reflexivity.
  - vm_compute; reflexivity.
  - vm_compute. discriminate.
Defined.

Lemma export_rows_only_grow_witness :
  exists added,
    fst (export_excel InMemory
           (run InMemory [GET_confirm "r-1"] (after_alpha InMemory)))
    = {| status := 200;
         payload :=
           JWorkbook (export_header
                      :: map export_row (db (after_alpha InMemory))
                         ++ map export_row added) |}.
Proof.
  destruct (export_rows_only_grow InMemory [GET_confirm "r-1"]
              (after_alpha InMemory)) as (added & _ & _ & H).
  exists added. apply H. vm_compute. discriminate.
Defined.

Lemma resubmission_is_refused_witness :
  exists res,
    register DiskBacked (sample_env 1707) alpha
      (run DiskBacked [] (snd (register DiskBacked (failing_env 1700) alpha initial)))
    = (res, run DiskBacked []
              (snd (register DiskBacked (failing_env 1700) alpha initial)))
    /\ DuplicateDocument DiskBacked res.
Proof.
  apply (resubmission_is_refused DiskBacked (failing_env 1700) (sample_env 1707)
           alpha initial
           (new_Registration DiskBacked (failing_env 1700)
              (sanitized (body alpha))
              (pdf "aadhar.pdf" "AADHAR-1") (pdf "college.pdf" "COLLEGE-1"))
           (db (after_alpha DiskBacked)) []
           (pdf "aadhar.pdf" "AADHAR-1") (pdf "college.pdf" "COLLEGE-1")).
  - vm_compute; reflexivity.
  - vm_compute; reflexivity.
  - vm_compute; reflexivity.
  - vm_compute; reflexivity.
  - reflexivity.
  - reflexivity.
  - intros _. vm_compute. reflexivity.
  - intros _. vm_compute. reflexivity.
Defined.

Lemma status_and_state_witness :
  exists doc m,
    sendMail (failing_env 1700) = TransportError m
    /\ snd (register InMemory (failing_env 1700) alpha initial)
       = {| db := ([] ++ [doc])%list; outbox := [] |}
    /\ status (fst (register InMemory (failing_env 1700) alpha initial))
       = 400%Z.
Proof.
  destruct (status_and_state InMemory (failing_env 1700) alpha initial
              (fst (register InMemory (failing_env 1700) alpha initial))
              (snd (register InMemory (failing_env 1700) alpha initial)))
    as [[H _]|[[H _]|H]].
  - vm_compute; reflexivity.
  - vm_compute in H. discriminate H.
  - vm_compute in H. discriminate H.
  - exact H.
Defined.

Lemma the_two_servers_compared_witness :
  validationResult DiskBacked (body alpha) = []
  /\ upload InMemory alpha = None.
Proof.
  split.
  - apply (proj1 (the_two_servers_compared alpha)). vm_compute; reflexivity.
  - apply (proj2 (the_two_servers_compared alpha)). vm_compute; reflexivity.
Defined.


